(** * yelp_search: pagination and review extraction

    A shallow embedding of the two notebook revisions of [yelp_search]:

    - [Scraper] follows [src/yelp_search.ipynb]: the search-API paginator
      built on [location_search_params], the BeautifulSoup review parser
      [parse_page] and the continuation-following loop [extract_reviews];
    - [Fusion] follows [src/unnamed/part_000]: the same paginator rebuilt on
      [get_url_params].

    Python values are an inductive type, exceptions are a [result] type, and
    the effects the code has (HTTP requests, [time.sleep], [print], calls of
    the injected fetcher) are threaded through an explicit state. *)

From Stdlib Require Import ZArith List String Ascii Bool Lia Arith.
From Equations Require Import Equations.
Import ListNotations.

Local Open Scope string_scope.
Local Open Scope Z_scope.
Local Open Scope list_scope.

Set Implicit Arguments.
Set Warnings "-register-all".

(** ** Python values and exceptions *)

(** The Python objects the code handles: what [response.json()] returns,
    the values of [url_params], and what a BeautifulSoup attribute lookup
    gives back.  JSON numbers are integers here (Yelp's [total] is a count);
    dictionaries keep insertion order, as Python's do. *)
Inductive pyval : Type :=
| PNone
| PBool (b : bool)
| PInt (z : Z)
| PStr (s : string)
| PList (l : list pyval)
| PDict (d : list (string * pyval)).

Definition dict : Type := list (string * pyval).

(** The exceptions the code can raise.  [RequestException] stands for
    whatever [requests.get] or [response.json()] raises. *)
Inductive exn : Type :=
| KeyError
| TypeError
| AttributeError
| ValueError
| RequestException.

Inductive result (A : Type) : Type :=
| Ok (a : A)
| Raise (e : exn).
Arguments Ok {A} a.
Arguments Raise {A} e.

Definition is_ok {A} (r : result A) : bool :=
  match r with Ok _ => true | Raise _ => false end.

Module Py.

(** [d.get(k)] on an insertion-ordered dictionary. *)
Fixpoint dict_get {V : Type} (d : list (string * V)) (k : string) : option V :=
  match d with
  | [] => None
  | (k', v) :: d' => if String.eqb k' k then Some v else dict_get d' k
  end.

(** [d[k] = v]: an existing key keeps its place, a new key goes last. *)
Fixpoint dict_set {V : Type} (d : list (string * V)) (k : string) (v : V)
  : list (string * V) :=
  match d with
  | [] => [(k, v)]
  | (k', v') :: d' =>
      if String.eqb k' k then (k', v) :: d' else (k', v') :: dict_set d' k v
  end.

Fixpoint dict_remove {V : Type} (d : list (string * V)) (k : string)
  : list (string * V) :=
  match d with
  | [] => []
  | (k', v') :: d' =>
      if String.eqb k' k then dict_remove d' k else (k', v') :: dict_remove d' k
  end.

(** [for key, value in kwargs.items(): url_params[key] = value] *)
Definition dict_update {V : Type} (d kwargs : list (string * V))
  : list (string * V) :=
  fold_left (fun acc kv => dict_set acc (fst kv) (snd kv)) kwargs d.

(** [obj[key]] with a string key: only a dictionary can answer. *)
Definition getitem (obj : pyval) (key : string) : result pyval :=
  match obj with
  | PDict d =>
      match dict_get d key with
      | Some v => Ok v
      | None => Raise KeyError
      end
  | _ => Raise TypeError
  end.

(** The characters of a string, each as a one-character string. *)
Fixpoint chars (s : string) : list pyval :=
  match s with
  | EmptyString => []
  | String c s' => PStr (String c EmptyString) :: chars s'
  end.

(** [list(obj)] *)
Definition list_of (obj : pyval) : result (list pyval) :=
  match obj with
  | PList l => Ok l
  | PStr s => Ok (chars s)
  | PDict d => Ok (map (fun kv => PStr (fst kv)) d)
  | _ => Raise TypeError
  end.

(** [for j in range(len(page_data)): result.append(page_data[j])].
    A list gives its items and a string its characters; a dictionary has
    a length but no key [0] (JSON keys are strings), so only the empty one
    passes; the other values have no [len]. *)
Definition append_items (result_ : list pyval) (page_data : pyval)
  : result (list pyval) :=
  match page_data with
  | PList l => Ok (result_ ++ l)
  | PStr s => Ok (result_ ++ chars s)
  | PDict [] => Ok result_
  | PDict (_ :: _) => Raise KeyError
  | _ => Raise TypeError
  end.

(** The right operand of [offset < total] when the left one is an [int]:
    [bool] is a subclass of [int]; the other values are not ordered with
    an integer. *)
Definition as_int (v : pyval) : result Z :=
  match v with
  | PInt z => Ok z
  | PBool b => Ok (Z.b2z b)
  | _ => Raise TypeError
  end.

(** [s.replace(" ", "-")] *)
Fixpoint replace_spaces (s : string) : string :=
  match s with
  | EmptyString => EmptyString
  | String c s' =>
      String (if Ascii.eqb c " "%char then "-"%char else c) (replace_spaces s')
  end.

(** [v != None] *)
Definition is_not_none (v : pyval) : bool :=
  match v with PNone => false | _ => true end.

(** How a call with positional arguments [args] and keyword arguments
    [kwargs] binds the parameters of
    [def f(p1, ..., pn, **kwargs)]: positional arguments fill the parameters
    in order, the parameters left over are taken from the keywords, and one
    positional argument too many, a parameter given twice or a parameter not
    given are [TypeError]s.  Returns the parameters' values and the keywords
    that remain for [**kwargs]. *)
Fixpoint bind_arguments (params : list string) (args : list pyval)
  (kwargs : dict) : result (list pyval * dict) :=
  match params with
  | [] =>
      match args with
      | [] => Ok ([], kwargs)
      | _ :: _ => Raise TypeError
      end
  | p :: params' =>
      match args with
      | a :: args' =>
          match dict_get kwargs p with
          | Some _ => Raise TypeError
          | None =>
              match bind_arguments params' args' kwargs with
              | Ok (vs, kw) => Ok (a :: vs, kw)
              | Raise e => Raise e
              end
          end
      | [] =>
          match dict_get kwargs p with
          | Some v =>
              match bind_arguments params' [] (dict_remove kwargs p) with
              | Ok (vs, kw) => Ok (v :: vs, kw)
              | Raise e => Raise e
              end
          | None => Raise TypeError
          end
      end
  end.

End Py.

(** ** Computations with state and exceptions *)

(** A computation reads and writes a state of type [S] and either returns
    or raises; the state written before an exception is kept. *)
Definition M (S A : Type) : Type := S -> result A * S.

Definition ret {S A} (a : A) : M S A := fun st => (Ok a, st).

Definition bind {S A B} (m : M S A) (k : A -> M S B) : M S B :=
  fun st =>
    match m st with
    | (Ok a, st') => k a st'
    | (Raise e, st') => (Raise e, st')
    end.

Definition lift {S A} (r : result A) : M S A := fun st => (r, st).

Declare Scope py_scope.
Delimit Scope py_scope with py.
Notation "x <- m ;; k" := (bind m (fun x => k))
  (at level 100, m at next level, right associativity) : py_scope.
Notation "m ;;; k" := (bind m (fun _ => k))
  (at level 100, right associativity) : py_scope.

(** Exceptions alone, for the code that has no other effect. *)
Definition rbind {A B} (r : result A) (k : A -> result B) : result B :=
  match r with
  | Ok a => k a
  | Raise e => Raise e
  end.

Declare Scope res_scope.
Delimit Scope res_scope with res.
Notation "x <- r ;; k" := (rbind r (fun x => k))
  (at level 100, r at next level, right associativity) : res_scope.

(** A request as the code passes it around: [(url, headers, url_params)]. *)
Definition request : Type := string * dict * dict.

(** ** The world the API functions run in *)

Section Api.

(** The remote service, as a state machine: [requests.get(url, params,
    headers).json()] returns the decoded body or raises, and the service
    moves on. *)
Variable World : Type.
Variable requests_get_json : request -> World -> result pyval * World.

(** What a run leaves behind: the service's state, the requests sent (in
    order) and the number of [time.sleep(.3)] pauses taken. *)
Record api_state : Type := ApiState {
  world : World;
  sent : list request;
  sleeps : nat
}.

Definition http_get (req : request) : M api_state pyval :=
  fun st =>
    let (r, w') := requests_get_json req (world st) in
    (r, ApiState w' (sent st ++ [req]) (sleeps st)).

Definition pause (st : api_state) : api_state :=
  ApiState (world st) (sent st) (S (sleeps st)).

Definition sleep : M api_state unit := fun st => (Ok tt, pause st).

(** [api_get_request(url, headers, url_params)] *)
Definition api_get_request (url : string) (headers url_params : dict)
  : M api_state pyval :=
  http_get (url, headers, url_params).

End Api.

(** ** BeautifulSoup documents *)

Module Bs4.

(** An attribute value as BeautifulSoup keeps it: a string, or a list of
    strings for the multi-valued attributes ([class], [rel] on a [link],
    ...), which the parser has split at white space. *)
Inductive attr_value : Type :=
| AttrStr (s : string)
| AttrList (l : list string).

(** A node of the parsed tree.  [Comment] stands for the strings that are
    not part of an element's text (comments, doctypes and the like). *)
Inductive node : Type :=
| Tag (name : string) (attrs : list (string * attr_value)) (contents : list node)
| NavigableString (s : string)
| Comment (s : string).

(** The attribute value as the Python object the caller receives. *)
Definition to_py (v : attr_value) : pyval :=
  match v with
  | AttrStr s => PStr s
  | AttrList l => PList (map PStr l)
  end.

(** [node.descendants]: every node below [n], in document order. *)
Fixpoint descendants (n : node) : list node :=
  match n with
  | Tag _ _ contents => flat_map (fun c => c :: descendants c) contents
  | _ => []
  end.

(** [" ".join(l)] *)
Fixpoint join_spaces (l : list string) : string :=
  match l with
  | [] => EmptyString
  | [s] => s
  | s :: l' => (s ++ " " ++ join_spaces l')%string
  end.

(** Does the attribute value match the string searched for?  A list matches
    through any of its items, or as a whole once joined; an absent attribute
    matches nothing.  (The strings searched for in this program hold no
    space.) *)
Definition value_matches (v : option attr_value) (against : string) : bool :=
  match v with
  | None => false
  | Some (AttrStr s) => String.eqb s against
  | Some (AttrList l) =>
      existsb (fun s => String.eqb s against) l
      || String.eqb (join_spaces l) against
  end.

(** The filter of [find(name, **attrs)]: a tag, of that name when one is
    given, whose attributes match each of the keyword arguments. *)
Definition matches (name : option string) (kwattrs : list (string * string))
  (n : node) : bool :=
  match n with
  | Tag nm attrs _ =>
      match name with
      | Some wanted => String.eqb nm wanted
      | None => true
      end
      && forallb (fun kv => value_matches (Py.dict_get attrs (fst kv)) (snd kv))
           kwattrs
  | _ => false
  end.

(** [n.find_all(name, **attrs)] *)
Definition find_all (name : option string) (kwattrs : list (string * string))
  (n : node) : list node :=
  filter (matches name kwattrs) (descendants n).

(** [n.find(name, **attrs)] is [find_all] limited to one result: that
    result, or [None]. *)
Definition find (name : option string) (kwattrs : list (string * string))
  (n : node) : option node :=
  match find_all name kwattrs n with
  | [] => None
  | t :: _ => Some t
  end.

(** [tag.get(key)]: the value, or [None]. *)
Definition get (t : node) (key : string) : pyval :=
  match t with
  | Tag _ attrs _ =>
      match Py.dict_get attrs key with
      | Some v => to_py v
      | None => PNone
      end
  | _ => PNone
  end.

(** [tag.attrs[key]]; strings have no [attrs]. *)
Definition attrs_getitem (t : node) (key : string) : result pyval :=
  match t with
  | Tag _ attrs _ =>
      match Py.dict_get attrs key with
      | Some v => Ok (to_py v)
      | None => Raise KeyError
      end
  | _ => Raise AttributeError
  end.

(** [tag.text]: the strings below the tag, joined. *)
Definition text (t : node) : string :=
  String.concat ""
    (flat_map (fun d => match d with NavigableString s => [s] | _ => [] end)
       (descendants t)).

End Bs4.

(** ** [src/yelp_search.ipynb] *)

Module Scraper.

Section Api.

Variable World : Type.
Variable requests_get_json : request -> World -> result pyval * World.

Local Abbreviation state := (api_state World).

(** [location_search_params(api_key, location, **kwargs)] *)
Definition location_search_params (api_key location : string) (kwargs : dict)
  : request :=
  let url := "https://api.yelp.com/v3/businesses/search" in
  let headers := [("Authorization", PStr ("Bearer " ++ api_key)%string)] in
  let location_no_space := Py.replace_spaces location in
  let url_params := [("location", PStr location_no_space)] in
  (url, headers, Py.dict_update url_params kwargs).

(** [yelp_search(api_key, location, offset=0)]: the call below passes
    [offset=0], whatever [offset] is. *)
Definition yelp_search (api_key location : string) (offset : pyval)
  : M state (pyval * list pyval) :=
  (let '(url, headers, url_params) :=
     location_search_params api_key location [("offset", PInt 0)] in
   response_json <- api_get_request requests_get_json url headers url_params ;;
   total <- lift (Py.getitem response_json "total") ;;
   businesses <- lift (Py.getitem response_json "businesses") ;;
   businesses_list <- lift (Py.list_of businesses) ;;
   ret (total, businesses_list))%py.

(** The [while offset_ < total] loop of
    [paginated_restaurant_search_requests]; every turn leaves [total -
    offset_] smaller by 20. *)
Equations? pages_loop (api_key location : string) (total offset_ : Z)
  (pages : list request) (st : state) : result (list request) * state
  by wf (Z.to_nat (total - offset_)) lt :=
  pages_loop api_key location total offset_ pages st
    with Z_lt_dec offset_ total := {
    | left _ =>
        let page :=
          location_search_params api_key location
            [("offset", PInt offset_); ("limit", PInt 20);
             ("categories", PStr "restaurants")] in
        pages_loop api_key location total (offset_ + 20) (pages ++ [page])
          (pause st);
    | right _ => (Ok pages, st) }.
Proof. lia. Qed.

(** [paginated_restaurant_search_requests(api_key, location, total)] *)
Definition paginated_restaurant_search_requests (api_key location : string)
  (total : Z) : M state (list request) :=
  pages_loop api_key location total 0 [].

(** The [for i in range(len(restaurant_pages))] loop of [all_restaurants]. *)
Fixpoint fetch_pages (restaurant_pages : list request) (result_ : list pyval)
  : M state (list pyval) :=
  match restaurant_pages with
  | [] => ret result_
  | page :: rest =>
      (content_json <- http_get requests_get_json page ;;
       page_data <- lift (Py.getitem content_json "businesses") ;;
       result' <- lift (Py.append_items result_ page_data) ;;
       @sleep World ;;;
       fetch_pages rest result')%py
  end.

(** [all_restaurants(api_key, location)].  [total_items] reaches the
    comparison [offset_ < total] as it came out of the response; nothing
    happens between the lookup and that first comparison, so the conversion
    is done once, up front. *)
Definition all_restaurants (api_key location : string) : M state (list pyval) :=
  (let '(url, headers, url_params) :=
     location_search_params api_key location [("offset", PInt 0)] in
   content_json <- http_get requests_get_json (url, headers, url_params) ;;
   total_items <- lift (Py.getitem content_json "total") ;;
   total <- lift (Py.as_int total_items) ;;
   restaurant_pages <-
     paginated_restaurant_search_requests api_key location total ;;
   fetch_pages restaurant_pages [])%py.

End Api.

Section Html.

(** Python's floats and their constructor [float(...)], and the parser
    [BeautifulSoup(html, 'html.parser')], are taken as given. *)
Variable pyfloat : Type.
Variable float_of_string : string -> option pyfloat.
Variable float_of_int : Z -> pyfloat.
Variable BeautifulSoup : string -> Bs4.node.

(** [float(v)] *)
Definition float (v : pyval) : result pyfloat :=
  match v with
  | PStr s =>
      match float_of_string s with
      | Some f => Ok f
      | None => Raise ValueError
      end
  | PInt z => Ok (float_of_int z)
  | PBool b => Ok (float_of_int (Z.b2z b))
  | _ => Raise TypeError
  end.

(** The dictionary [parse_page] builds for a review. *)
Record review : Type := Review {
  author : pyval;
  rating : pyfloat;
  date : pyval;
  description : string
}.

(** [found.attrs[key]], where [found] is what [find] returned. *)
Definition attrs_of (found : option Bs4.node) (key : string) : result pyval :=
  match found with
  | Some t => Bs4.attrs_getitem t key
  | None => Raise AttributeError
  end.

(** [found.text] *)
Definition text_of (found : option Bs4.node) : result string :=
  match found with
  | Some t => Ok (Bs4.text t)
  | None => Raise AttributeError
  end.

(** The body of the loop of [parse_page], for the review unit [r]. *)
Definition parse_review (r : Bs4.node) : result review :=
  (author <- attrs_of (Bs4.find None [("itemprop", "author")] r) "content" ;;
   rating <- attrs_of (Bs4.find None [("itemprop", "ratingValue")] r) "content" ;;
   rating <- float rating ;;
   date <- attrs_of (Bs4.find None [("itemprop", "datePublished")] r) "content" ;;
   description <- text_of (Bs4.find (Some "p") [] r) ;;
   Ok (Review author rating date description))%res.

(** [for i in range(len(reviews)): ... reviews_list.append(review)] *)
Fixpoint parse_reviews (reviews : list Bs4.node) (reviews_list : list review)
  : result (list review) :=
  match reviews with
  | [] => Ok reviews_list
  | r :: rest =>
      (review <- parse_review r ;;
       parse_reviews rest (reviews_list ++ [review]))%res
  end.

(** [parse_page(html)] *)
Definition parse_page (html : string) : result (list review * pyval) :=
  let soup := BeautifulSoup html in
  let url_next :=
    match Bs4.find (Some "link") [("rel", "next")] soup with
    | Some t => Bs4.get t "href"
    | None => PNone
    end in
  let reviews := Bs4.find_all (Some "div") [("itemprop", "review")] soup in
  (reviews_list <- parse_reviews reviews [] ;;
   Ok (reviews_list, url_next))%res.

(** The injected fetcher: a URL to a status code and a body.  It is
    whatever function the caller hands in, so it comes with a state of its
    own ([Web]: the site it reads, or the script of a test double), which a
    call may change. *)
Variable Web : Type.
Variable html_fetcher : pyval -> Web -> (Z * string) * Web.

(** What a run of [extract_reviews] leaves behind: the fetcher's state, the
    arguments [html_fetcher] was called with, in order, and the lines
    printed. *)
Record scrape_state : Type := ScrapeState {
  web : Web;
  fetched : list pyval;
  stdout : list string
}.

(** The state after a call [html_fetcher(url)] that left the fetcher in
    state [web']. *)
Definition called (url : pyval) (web' : Web) (st : scrape_state)
  : scrape_state :=
  ScrapeState web' (fetched st ++ [url]) (stdout st).

(** [html_fetcher(url)] *)
Definition fetch (url : pyval) (st : scrape_state)
  : (Z * string) * scrape_state :=
  let (answer, web') := html_fetcher url (web st) in
  (answer, called url web' st).

(** [print(line)] *)
Definition printed (line : string) (st : scrape_state) : scrape_state :=
  ScrapeState (web st) (fetched st) (stdout st ++ [line]).

(** The [while (next_url != None)] loop of [extract_reviews].  Nothing
    bounds it in the code; [fuel] bounds the number of turns here, and
    [None] says the fuel ran out with the loop still going. *)
Fixpoint follow (fuel : nat) (reviews : list review) (next_url : pyval)
  (st : scrape_state) : option (result (list review)) * scrape_state :=
  if Py.is_not_none next_url then
    match fuel with
    | O => (None, st)
    | S fuel' =>
        let '((code, html), st') := fetch next_url st in
        match parse_page html with
        | Raise e => (Some (Raise e), st')
        | Ok (reviews_temp, next_url_temp) =>
            follow fuel' (reviews ++ reviews_temp) next_url_temp st'
        end
    end
  else (Some (Ok reviews), st).

(** [extract_reviews(url, html_fetcher)] *)
Definition extract_reviews (fuel : nat) (url : pyval) (st : scrape_state)
  : option (result (list review)) * scrape_state :=
  let '((code, html), st1) := fetch url st in
  match parse_page html with
  | Raise e => (Some (Raise e), st1)
  | Ok (reviews, next_url) =>
      follow fuel reviews next_url (printed (substring 0 100 html) st1)
  end.

End Html.

End Scraper.

(** ** [src/unnamed/part_000] *)

Module Fusion.

Section Api.

Variable World : Type.
Variable requests_get_json : request -> World -> result pyval * World.

(** [str(v)], as an f-string formats a value; taken as given. *)
Variable py_str : pyval -> string.

Local Abbreviation state := (api_state World).

(** [get_url_params(url_addition, api_key, **kwargs)], called with the
    positional arguments [args] and the keyword arguments [kwargs]. *)
Definition get_url_params (args : list pyval) (kwargs : dict) : result request :=
  match Py.bind_arguments ["url_addition"; "api_key"] args kwargs with
  | Ok ([url_addition; api_key], kwargs') =>
      match url_addition with
      | PStr url_addition' =>
          let url :=
            ("https://api.yelp.com/v3/businesses" ++ url_addition')%string in
          let headers :=
            [("Authorization", PStr ("Bearer " ++ py_str api_key)%string)] in
          let url_params := [] in
          Ok (url, headers, Py.dict_update url_params kwargs')
      | _ => Raise TypeError
      end
  | Ok _ => Raise TypeError
  | Raise e => Raise e
  end.

(** [yelp_search(api_key, location, offset = 0)] *)
Definition yelp_search (api_key location offset : pyval)
  : M state (pyval * list pyval) :=
  (page <- lift (get_url_params [PStr "/search"; api_key]
                   [("location", location); ("offset", offset)]) ;;
   let '(url, headers, url_params) := page in
   response_json <- api_get_request requests_get_json url headers url_params ;;
   total <- lift (Py.getitem response_json "total") ;;
   businesses <- lift (Py.getitem response_json "businesses") ;;
   businesses_list <- lift (Py.list_of businesses) ;;
   ret (total, businesses_list))%py.

(** The [while current_offset < total] loop of
    [paginated_restaurant_search_requests]: the call of [get_url_params]
    passes [location] as a third positional argument. *)
Equations? pages_loop (api_key location : pyval) (total current_offset : Z)
  (pages : list request) (st : state) : result (list request) * state
  by wf (Z.to_nat (total - current_offset)) lt :=
  pages_loop api_key location total current_offset pages st
    with Z_lt_dec current_offset total := {
    | left _ =>
        match
          get_url_params [PStr "/search"; api_key; location]
            [("offset", PInt current_offset); ("limit", PInt 20);
             ("categories", PStr "restaurants")]
        with
        | Ok page =>
            pages_loop api_key location total (current_offset + 20)
              (pages ++ [page]) (pause st)
        | Raise e => (Raise e, st)
        end;
    | right _ => (Ok pages, st) }.
Proof. lia. Qed.

(** [paginated_restaurant_search_requests(api_key, location, total)] *)
Definition paginated_restaurant_search_requests (api_key location : pyval)
  (total : Z) : M state (list request) :=
  pages_loop api_key location total 0 [].

(** The [for i in range(len(restaurant_pages))] loop of [all_restaurants]. *)
Fixpoint fetch_pages (restaurant_pages : list request) (result_ : list pyval)
  : M state (list pyval) :=
  match restaurant_pages with
  | [] => ret result_
  | page :: rest =>
      (let '(url, headers, url_params) := page in
       content_json <- api_get_request requests_get_json url headers url_params ;;
       page_data <- lift (Py.getitem content_json "businesses") ;;
       result' <- lift (Py.append_items result_ page_data) ;;
       @sleep World ;;;
       fetch_pages rest result')%py
  end.

(** [all_restaurants(api_key, loc)]; the conversion of [total_items] is
    placed as in [Scraper.all_restaurants]. *)
Definition all_restaurants (api_key loc : pyval) : M state (list pyval) :=
  (page <- lift (get_url_params [PStr "/search"; api_key]
                   [("location", loc); ("offset", PInt 0)]) ;;
   let '(url, headers, url_params) := page in
   content_json <- api_get_request requests_get_json url headers url_params ;;
   total_items <- lift (Py.getitem content_json "total") ;;
   total <- lift (Py.as_int total_items) ;;
   restaurant_pages <-
     paginated_restaurant_search_requests api_key loc total ;;
   fetch_pages restaurant_pages [])%py.

End Api.

End Fusion.

(** ** The API key file ([src/yelp_search.ipynb]) *)

Module Keys.



Section Files.

(** The files: [open(filepath, 'r').read()] gives the text of the file or
    raises one of the errors of the operating system. *)
Variable OSError : Type.
Variable open_read : string -> OSError + string.


End Files.

End Keys.

(** ** The URLs of a search answer (both notebooks) *)

Module Urls.

Section Json.

(** [json.loads(data)]: the decoded value, or what the decoder raises. *)
Variable json_loads : string -> result pyval.

(** [for i in range(len(data_)): temp = data_[i]; urls.append(temp['url'])],
    over the items of [data_]. *)
Fixpoint collect_urls (items : list pyval) (urls : list pyval)
  : result (list pyval) :=
  match items with
  | [] => Ok urls
  | temp :: rest =>
      (url <- Py.getitem temp "url" ;;
       collect_urls rest (urls ++ [url]))%res
  end.

(** [parse_api_response(data)].  The loop indexes [data_] from 0 to its
    length: a list gives its items and a string its characters; a dictionary
    has a length but no key [0], so only the empty one passes; the other
    values have no [len]. *)
Definition parse_api_response (data : string) : result (list pyval) :=
  (data_ <- json_loads data ;;
   data_ <- Py.getitem data_ "businesses" ;;
   match data_ with
   | PList items => collect_urls items []
   | PStr s => collect_urls (Py.chars s) []
   | PDict [] => Ok []
   | PDict (_ :: _) => Raise KeyError
   | _ => Raise TypeError
   end)%res.

End Json.

End Urls.

(** ** Business match and reviews ([src/unnamed/part_000]) *)

Module Matches.

(** What this part of the code can raise: the exceptions met so far, and
    the [IndexError] of [business[0]] on an empty sequence. *)
Inductive error : Type :=
| Builtin (e : exn)
| IndexError.

Inductive outcome (A : Type) : Type :=
| Returns (a : A)
| Raises (e : error).
Arguments Returns {A} a.
Arguments Raises {A} e.

Definition of_result {A} (r : result A) : outcome A :=
  match r with
  | Ok a => Returns a
  | Raise e => Raises (Builtin e)
  end.

(** Is [needle] a substring of [hay]? *)
Fixpoint substring_of (needle hay : string) : bool :=
  String.prefix needle hay
  || match hay with
     | EmptyString => false
     | String _ hay' => substring_of needle hay'
     end.

(** ['error' in obj]: a key of a dictionary, an item of a list, a substring
    of a string; the other values are not containers. *)
Definition has_error (obj : pyval) : outcome bool :=
  match obj with
  | PDict d =>
      Returns (match Py.dict_get d "error" with Some _ => true | None => false end)
  | PList l =>
      Returns (existsb (fun x => match x with
                                 | PStr s => String.eqb s "error"
                                 | _ => false
                                 end) l)
  | PStr s => Returns (substring_of "error" s)
  | _ => Raises (Builtin TypeError)
  end.

(** [obj[0]] *)
Definition first_item (obj : pyval) : outcome pyval :=
  match obj with
  | PList (x :: _) => Returns x
  | PList [] => Raises IndexError
  | PStr (String c _) => Returns (PStr (String c EmptyString))
  | PStr EmptyString => Raises IndexError
  | PDict _ => Raises (Builtin KeyError)
  | _ => Raises (Builtin TypeError)
  end.

(** ['/' + business_id + '/reviews'] *)
Definition reviews_path (business_id : pyval) : outcome string :=
  match business_id with
  | PStr id => Returns ("/" ++ id ++ "/reviews")%string
  | _ => Raises (Builtin TypeError)
  end.

Section Api.

Variable World : Type.
Variable requests_get_json : request -> World -> result pyval * World.
Variable py_str : pyval -> string.

(** What a run leaves behind: the state of the API calls and the lines
    printed. *)
Record state : Type := State {
  api : api_state World;
  stdout : list string
}.

Definition R (A : Type) : Type := state -> outcome A * state.

Definition ret {A} (a : A) : R A := fun st => (Returns a, st).

Definition bind {A B} (m : R A) (k : A -> R B) : R B :=
  fun st =>
    match m st with
    | (Returns a, st') => k a st'
    | (Raises e, st') => (Raises e, st')
    end.

(** A step without effect. *)
Definition pure {A} (o : outcome A) : R A := fun st => (o, st).

(** A step of the API functions above. *)
Definition call {A} (m : M (api_state World) A) : R A :=
  fun st =>
    let (r, api') := m (api st) in
    (of_result r, State api' (stdout st)).

(** [print(label, value)]: the two, separated by a space. *)
Definition print2 (label : string) (value : pyval) : R unit :=
  fun st =>
    (Returns tt,
     State (api st) (stdout st ++ [(label ++ " " ++ py_str value)%string])).

(** [print(line)] *)
Definition print (line : string) : R unit :=
  fun st => (Returns tt, State (api st) (stdout st ++ [line])).

Declare Scope run_scope.
Delimit Scope run_scope with run.
Notation "x <- m ;; k" := (bind m (fun x => k))
  (at level 100, m at next level, right associativity) : run_scope.
Notation "m ;;; k" := (bind m (fun _ => k))
  (at level 100, right associativity) : run_scope.

(** [get_business_id(api_key, name, address, city, state, country)] *)
Definition get_business_id (api_key name address city state_ country : pyval)
  : R pyval :=
  (page <- pure (of_result
             (Fusion.get_url_params py_str [PStr "/matches"; api_key]
                [("name", name); ("address1", address); ("city", city);
                 ("state", state_); ("country", country)])) ;;
   let '(url, headers, url_params) := page in
   response_json <- call (api_get_request requests_get_json url headers url_params) ;;
   error_reported <- pure (has_error response_json) ;;
   if error_reported : bool then
     (err <- pure (of_result (Py.getitem response_json "error")) ;;
      code <- pure (of_result (Py.getitem err "code")) ;;
      print2 "error code:" code ;;;
      err <- pure (of_result (Py.getitem response_json "error")) ;;
      description <- pure (of_result (Py.getitem err "description")) ;;
      print2 "description:" description ;;;
      ret PNone)
   else
     (business <- pure (of_result (Py.getitem response_json "businesses")) ;;
      first <- pure (first_item business) ;;
      pure (of_result (Py.getitem first "id"))))%run.

(** [extract_reviews(api_key, name, address, city, state, country)]: [None]
    when the business is not found, the pair [(reviews, total)] otherwise. *)
Definition extract_reviews (api_key name address city state_ country : pyval)
  : R (option (pyval * pyval)) :=
  (business_id <- get_business_id api_key name address city state_ country ;;
   if Py.is_not_none business_id then
     (url_addition <- pure (reviews_path business_id) ;;
      page <- pure (of_result
                (Fusion.get_url_params py_str [PStr url_addition; api_key] [])) ;;
      let '(url, headers, url_params) := page in
      response_json <- call (api_get_request requests_get_json url headers url_params) ;;
      reviews <- pure (of_result (Py.getitem response_json "reviews")) ;;
      total <- pure (of_result (Py.getitem response_json "total")) ;;
      ret (Some (reviews, total)))
   else
     (print "business not found" ;;;
      ret None))%run.

End Api.

End Matches.

(** ** Vocabulary of the statements *)

(** [ceil(total / 20)], the number of pages of a count [total]. *)
Definition page_count (total : Z) : nat := Z.to_nat ((total + 19) / 20).

(** The offsets [start, start + 20, ...] below [total]. *)
Definition offsets_from (start total : Z) : list Z :=
  map (fun i => start + 20 * Z.of_nat i) (seq 0 (page_count (total - start))).

(** The offsets [0, 20, 40, ...] below [total]. *)
Definition offsets (total : Z) : list Z := offsets_from 0 total.

(** What the service answers to a list of requests sent one after the
    other, and where that leaves it. *)
Fixpoint serve {World : Type}
  (requests_get_json : request -> World -> result pyval * World)
  (w : World) (reqs : list request) : list (result pyval) * World :=
  match reqs with
  | [] => ([], w)
  | req :: rest =>
      let (answer, w1) := requests_get_json req w in
      let (answers, w2) := serve requests_get_json w1 rest in
      (answer :: answers, w2)
  end.

(** The answer is a JSON object whose [businesses] field is the array [b]. *)
Definition carries_businesses (answer : result pyval) (b : list pyval) : Prop :=
  exists content,
    answer = Ok content /\ Py.getitem content "businesses" = Ok (PList b).

Module ScraperSpec.

(** The probe request of [all_restaurants]: the search endpoint, the key as
    a bearer token, the location with its spaces replaced, offset 0. *)
Definition probe_request (api_key location : string) : request :=
  ("https://api.yelp.com/v3/businesses/search",
   [("Authorization", PStr ("Bearer " ++ api_key)%string)],
   [("location", PStr (Py.replace_spaces location)); ("offset", PInt 0)]).

(** The paged request for one offset: the same, with the offset, the fixed
    page size 20 and the category filter. *)
Definition page_request (api_key location : string) (offset : Z) : request :=
  ("https://api.yelp.com/v3/businesses/search",
   [("Authorization", PStr ("Bearer " ++ api_key)%string)],
   [("location", PStr (Py.replace_spaces location)); ("offset", PInt offset);
    ("limit", PInt 20); ("categories", PStr "restaurants")]).

End ScraperSpec.

Module FusionSpec.

(** The probe request of [all_restaurants]. *)
Definition probe_request (py_str : pyval -> string) (api_key loc : pyval)
  : request :=
  ("https://api.yelp.com/v3/businesses/search",
   [("Authorization", PStr ("Bearer " ++ py_str api_key)%string)],
   [("location", loc); ("offset", PInt 0)]).

End FusionSpec.

(** *** Documents *)

Module Doc.

(** Is the attribute [key] of these attributes the string [against], or a
    list holding it? *)
Definition has_value (attrs : list (string * Bs4.attr_value))
  (key against : string) : bool :=
  Bs4.value_matches (Py.dict_get attrs key) against.

(** A review unit: a [div] marked [itemprop="review"]. *)
Definition is_review_unit (n : Bs4.node) : bool :=
  match n with
  | Bs4.Tag name attrs _ =>
      String.eqb name "div" && has_value attrs "itemprop" "review"
  | _ => false
  end.

(** The designated "next" link: a [link] whose [rel] is or holds [next]. *)
Definition is_next_link (n : Bs4.node) : bool :=
  match n with
  | Bs4.Tag name attrs _ =>
      String.eqb name "link" && has_value attrs "rel" "next"
  | _ => false
  end.

(** An element marked [itemprop=prop]. *)
Definition has_itemprop (prop : string) (n : Bs4.node) : bool :=
  match n with
  | Bs4.Tag _ attrs _ => has_value attrs "itemprop" prop
  | _ => false
  end.

Definition is_paragraph (n : Bs4.node) : bool :=
  match n with
  | Bs4.Tag name _ _ => String.eqb name "p"
  | _ => false
  end.

(** The review units of a document, in document order. *)
Definition review_units (soup : Bs4.node) : list Bs4.node :=
  filter is_review_unit (Bs4.descendants soup).

(** The nested field [prop] of a review unit: the [content] attribute of the
    first element below the unit that is marked [itemprop=prop]. *)
Definition field (prop : string) (r : Bs4.node) : option Bs4.attr_value :=
  match List.find (has_itemprop prop) (Bs4.descendants r) with
  | Some (Bs4.Tag _ attrs _) => Py.dict_get attrs "content"
  | _ => None
  end.

(** The first paragraph element below a review unit. *)
Definition paragraph (r : Bs4.node) : option Bs4.node :=
  List.find is_paragraph (Bs4.descendants r).

(** The unit lacks one of its four nested fields. *)
Definition lacks_field (r : Bs4.node) : Prop :=
  field "author" r = None
  \/ field "ratingValue" r = None
  \/ field "datePublished" r = None
  \/ paragraph r = None.

(** The continuation a document determines: the [href] of its first "next"
    link in document order ([None] when that link has no [href]), and [None]
    when it has no such link. *)
Definition continuation (soup : Bs4.node) : pyval :=
  match List.find is_next_link (Bs4.descendants soup) with
  | Some t => Bs4.get t "href"
  | None => PNone
  end.

Section Records.

Variable pyfloat : Type.
Variable float_of_string : string -> option pyfloat.

(** [rec] is the record of the well-formed unit [r]: the unit carries the
    author, the rating value and the publication date as strings, the rating
    reads as a float, and there is a paragraph below it. *)
Definition record_of (r : Bs4.node) (rec : Scraper.review pyfloat) : Prop :=
  exists (a v d : string) (f : pyfloat) (p : Bs4.node),
    field "author" r = Some (Bs4.AttrStr a)
    /\ field "ratingValue" r = Some (Bs4.AttrStr v)
    /\ float_of_string v = Some f
    /\ field "datePublished" r = Some (Bs4.AttrStr d)
    /\ paragraph r = Some p
    /\ rec = Scraper.Review (PStr a) f (PStr d) (Bs4.text p).

Definition well_formed (r : Bs4.node) : Prop := exists rec, record_of r rec.

End Records.

End Doc.

(** *** Chains of pages *)

Module Chain.

Section Chains.

Variable pyfloat : Type.
Variable float_of_string : string -> option pyfloat.
Variable float_of_int : Z -> pyfloat.
Variable BeautifulSoup : string -> Bs4.node.
Variable Web : Type.
Variable html_fetcher : pyval -> Web -> (Z * string) * Web.

(** What the page behind a URL parses to, and the state the fetcher is left
    in: the body the fetcher returns for the URL, handed to [parse_page]. *)
Definition page_of (url : pyval) (w : Web)
  : result (list (Scraper.review pyfloat) * pyval) * Web :=
  let (answer, w') := html_fetcher url w in
  (Scraper.parse_page float_of_string float_of_int BeautifulSoup (snd answer),
   w').

(** [reaches w url pages w']: following the continuation pointers from
    [url], with the fetcher in state [w], ends at [None] after finitely many
    pages and leaves the fetcher in state [w']; [pages] lists the pages on
    the way, each as the URL it was fetched from and the records it
    yields. *)
Inductive reaches :
  Web -> pyval -> list (pyval * list (Scraper.review pyfloat)) -> Web -> Prop :=
| reaches_last (w w' : Web) (url : pyval)
    (recs : list (Scraper.review pyfloat)) :
    page_of url w = (Ok (recs, PNone), w') ->
    reaches w url [(url, recs)] w'
| reaches_next (w w1 w' : Web) (url next : pyval)
    (recs : list (Scraper.review pyfloat))
    (rest : list (pyval * list (Scraper.review pyfloat))) :
    page_of url w = (Ok (recs, next), w1) ->
    next <> PNone ->
    reaches w1 next rest w' ->
    reaches w url ((url, recs) :: rest) w'.

(** Where the loop stands before a fetch: the fetcher's state and the URL
    to fetch. *)
Definition config : Type := Web * pyval.

(** [follows c c']: the page fetched at [c] yields a continuation pointer,
    which takes the loop to [c']. *)
Definition follows (c c' : config) : Prop :=
  exists recs,
    page_of (snd c) (fst c) = (Ok (recs, snd c'), fst c') /\ snd c' <> PNone.

(** [leads_to c c']: the continuation pointers lead from [c] to [c'], in no
    step or more. *)
Inductive leads_to : config -> config -> Prop :=
| leads_here (c : config) : leads_to c c
| leads_on (c c1 c' : config) :
    follows c c1 -> leads_to c1 c' -> leads_to c c'.

(** The pages reached from [start] form a cycle: a continuation pointer
    leads back to a URL already visited, with the fetcher in the state it
    was in then (for a fetcher without state: back to a URL already
    visited). *)
Definition cyclic (start : config) : Prop :=
  exists c c', leads_to start c /\ follows c c' /\ leads_to c' c.

End Chains.

End Chain.

(** ** Fixtures *)

Module Fixture.

(** A service that answers every request alike: a total of 45 and a page of
    two businesses. *)
Definition steady_answer : pyval :=
  PDict [("total", PInt 45);
         ("businesses", PList [PDict [("name", PStr "Artopolis")];
                               PDict [("name", PStr "Santorini")]])].

Definition steady (req : request) (w : unit) : result pyval * unit :=
  (Ok steady_answer, w).

(** A service that reports no business at all. *)
Definition empty_answer : pyval := PDict [("total", PInt 0); ("businesses", PList [])].

Definition deserted (req : request) (w : unit) : result pyval * unit :=
  (Ok empty_answer, w).

(** A service whose second answer (the first paged one) is an error body
    without a [businesses] field. *)
Definition failing (req : request) (w : nat) : result pyval * nat :=
  match w with
  | O => (Ok steady_answer, S w)
  | S _ => (Ok (PDict [("error", PStr "TOO_MANY_REQUESTS")]), S w)
  end.

Definition fresh {World : Type} (w : World) : api_state World := ApiState w [] 0.

Definition api_key : string := "k3y".

Definition location : string := "Greektown, Chicago, IL".

(** The page of two businesses the steady service serves. *)
Definition two_businesses : list pyval :=
  [PDict [("name", PStr "Artopolis")]; PDict [("name", PStr "Santorini")]].

(** [str] on the values the fixtures pass as API key: strings. *)
Definition str_of (v : pyval) : string :=
  match v with
  | PStr s => s
  | PNone => "None"
  | PBool true => "True"
  | PBool false => "False"
  | _ => "<object>"
  end.

(** Floats of the fixtures: the ratings Yelp shows, as integers. *)
Definition float_of_string (s : string) : option Z :=
  if String.eqb s "1.0" then Some 1
  else if String.eqb s "2.0" then Some 2
  else if String.eqb s "3.0" then Some 3
  else if String.eqb s "4.0" then Some 4
  else if String.eqb s "5.0" then Some 5
  else None.

Definition float_of_int (z : Z) : Z := z.

(** A review unit as Yelp's pages mark it up. *)
Definition review_unit (author rating date words : string) : Bs4.node :=
  Bs4.Tag "div" [("itemprop", Bs4.AttrStr "review")]
    [Bs4.Tag "meta"
       [("itemprop", Bs4.AttrStr "author"); ("content", Bs4.AttrStr author)] [];
     Bs4.Tag "div" [("itemprop", Bs4.AttrStr "reviewRating")]
       [Bs4.Tag "meta"
          [("itemprop", Bs4.AttrStr "ratingValue");
           ("content", Bs4.AttrStr rating)] []];
     Bs4.Tag "meta"
       [("itemprop", Bs4.AttrStr "datePublished");
        ("content", Bs4.AttrStr date)] [];
     Bs4.Tag "p" [("itemprop", Bs4.AttrStr "description")]
       [Bs4.NavigableString words]].

(** A review unit without a publication date. *)
Definition undated_unit (author rating words : string) : Bs4.node :=
  Bs4.Tag "div" [("itemprop", Bs4.AttrStr "review")]
    [Bs4.Tag "meta"
       [("itemprop", Bs4.AttrStr "author"); ("content", Bs4.AttrStr author)] [];
     Bs4.Tag "meta"
       [("itemprop", Bs4.AttrStr "ratingValue"); ("content", Bs4.AttrStr rating)] [];
     Bs4.Tag "p" [] [Bs4.NavigableString words]].

Definition next_link (href : string) : Bs4.node :=
  Bs4.Tag "link"
    [("rel", Bs4.AttrList ["next"]); ("href", Bs4.AttrStr href)] [].

(** A page: the links in its head, the units in its body. *)
Definition page (links units : list Bs4.node) : Bs4.node :=
  Bs4.Tag "[document]" []
    [Bs4.Comment "DOCTYPE HTML";
     Bs4.Tag "html" []
       [Bs4.Tag "head" []
          (Bs4.Tag "title" [] [Bs4.NavigableString "The Jibarito Stop"] :: links);
        Bs4.Tag "body" [] units]].

Definition betsy : Bs4.node :=
  review_unit "Betsy F." "5.0" "2016-10-01" "Authentic, incredible".

Definition ana : Bs4.node :=
  review_unit "Ana G." "4.0" "2016-09-12" "Worth the wait".

Definition cy : Bs4.node := undated_unit "Cy H." "3.0" "Fine".

(** The documents of a small site, by their text: three pages of 20, 20 and
    5 reviews chained by "next" links, a page that links to itself, a page
    with two "next" links, and a page whose second unit has no date. *)
Definition BeautifulSoup (html : string) : Bs4.node :=
  if String.eqb html "<page 1>" then
    page [next_link "https://yelp.test/biz?start=20"] (repeat betsy 20)
  else if String.eqb html "<page 2>" then
    page [next_link "https://yelp.test/biz?start=40"] (repeat ana 20)
  else if String.eqb html "<page 3>" then
    page [] (repeat betsy 5)
  else if String.eqb html "<loop>" then
    page [next_link "https://yelp.test/loop"] [ana]
  else if String.eqb html "<two links>" then
    page [next_link "https://yelp.test/first";
          next_link "https://yelp.test/second"] []
  else if String.eqb html "<undated>" then
    page [] [betsy; cy; ana]
  else page [] [].

(** The bodies the site serves. *)
Definition body_of (url : pyval) : Z * string :=
  match url with
  | PStr u =>
      if String.eqb u "https://yelp.test/biz" then (200, "<page 1>")
      else if String.eqb u "https://yelp.test/biz?start=20" then (200, "<page 2>")
      else if String.eqb u "https://yelp.test/biz?start=40" then (200, "<page 3>")
      else if String.eqb u "https://yelp.test/loop" then (200, "<loop>")
      else (404, "<not found>")
  | _ => (404, "<not found>")
  end.

(** The site's fetcher: it has no state of its own. *)
Definition html_fetcher (url : pyval) (w : unit) : (Z * string) * unit :=
  (body_of url, w).

(** The same site behind a gateway that answers 503 to everything. *)
Definition flaky_fetcher (url : pyval) (w : unit) : (Z * string) * unit :=
  ((503, snd (body_of url)), w).

(** The URL the fixtures start from. *)
Definition start : pyval := PStr "https://yelp.test/biz".

(** The script of three pages. *)
Definition three_pages : list string := ["<page 1>"; "<page 2>"; "<page 3>"].

(** A test double: it serves the bodies of its script one after the other,
    whatever the URL asked for. *)
Definition scripted (url : pyval) (script : list string)
  : (Z * string) * list string :=
  match script with
  | [] => ((404, "<not found>"), [])
  | body :: rest => ((200, body), rest)
  end.

End Fixture.

(** ** More vocabulary and fixtures *)


(** The keys of a dictionary, in order. *)
Definition keys {V : Type} (d : list (string * V)) : list string := map fst d.

Module Broken.

Section Chains.

Variable pyfloat : Type.
Variable float_of_string : string -> option pyfloat.
Variable float_of_int : Z -> pyfloat.
Variable BeautifulSoup : string -> Bs4.node.
Variable Web : Type.
Variable html_fetcher : pyval -> Web -> (Z * string) * Web.

(** [breaks w url urls e w']: following the continuation pointers from
    [url], with the fetcher in state [w], meets a page that [parse_page]
    raises [e] on; [urls] lists the URLs fetched up to and including that
    page, and [w'] is the state the fetcher is left in. *)
Inductive breaks : Web -> pyval -> list pyval -> exn -> Web -> Prop :=
| breaks_here (w w' : Web) (url : pyval) (e : exn) :
    Chain.page_of float_of_string float_of_int BeautifulSoup html_fetcher url w
    = (Raise e, w') ->
    breaks w url [url] e w'
| breaks_later (w w1 w' : Web) (url next : pyval)
    (recs : list (Scraper.review pyfloat)) (urls : list pyval) (e : exn) :
    Chain.page_of float_of_string float_of_int BeautifulSoup html_fetcher url w
    = (Ok (recs, next), w1) ->
    next <> PNone ->
    breaks w1 next urls e w' ->
    breaks w url (url :: urls) e w'.

End Chains.

End Broken.

Module MatchesSpec.

(** The request of [get_business_id]: the match endpoint, the key as a
    bearer token, the five fields of the business. *)
Definition match_request (py_str : pyval -> string)
  (api_key name address city state_ country : pyval) : request :=
  ("https://api.yelp.com/v3/businesses/matches",
   [("Authorization", PStr ("Bearer " ++ py_str api_key)%string)],
   [("name", name); ("address1", address); ("city", city);
    ("state", state_); ("country", country)]).

(** The request of [extract_reviews] for the reviews of a business. *)
Definition reviews_request (py_str : pyval -> string) (api_key : pyval)
  (id : string) : request :=
  (("https://api.yelp.com/v3/businesses" ++ ("/" ++ id ++ "/reviews"))%string,
   [("Authorization", PStr ("Bearer " ++ py_str api_key)%string)],
   []).

Section Runs.

Variable World : Type.
Variable py_str : pyval -> string.

(** The state after a request that left the service in state [w]. *)
Definition requested (req : request) (w : World) (st : Matches.state World)
  : Matches.state World :=
  Matches.State (ApiState w (sent (Matches.api st) ++ [req])
                   (sleeps (Matches.api st)))
    (Matches.stdout st).

(** What [get_business_id] does once its request is answered. *)
Definition after_match (content : pyval) (st1 : Matches.state World)
  : Matches.outcome pyval * Matches.state World :=
  match Matches.has_error content with
  | Matches.Raises e => (Matches.Raises e, st1)
  | Matches.Returns true =>
      match Py.getitem content "error" with
      | Raise e => (Matches.Raises (Matches.Builtin e), st1)
      | Ok err =>
          match Py.getitem err "code" with
          | Raise e => (Matches.Raises (Matches.Builtin e), st1)
          | Ok code =>
              let st2 :=
                Matches.State (Matches.api st1)
                  (Matches.stdout st1
                   ++ [("error code:" ++ " " ++ py_str code)%string]) in
              match Py.getitem err "description" with
              | Raise e => (Matches.Raises (Matches.Builtin e), st2)
              | Ok description =>
                  (Matches.Returns PNone,
                   Matches.State (Matches.api st1)
                     (Matches.stdout st2
                      ++ [("description:" ++ " " ++ py_str description)%string]))
              end
          end
      end
  | Matches.Returns false =>
      match Py.getitem content "businesses" with
      | Raise e => (Matches.Raises (Matches.Builtin e), st1)
      | Ok business =>
          match Matches.first_item business with
          | Matches.Raises e => (Matches.Raises e, st1)
          | Matches.Returns first =>
              (Matches.of_result (Py.getitem first "id"), st1)
          end
      end
  end.

End Runs.

End MatchesSpec.

Module Sample.

(** A service that gives the answers of its script, one per request. *)
Definition scripted_api (req : request) (script : list pyval)
  : result pyval * list pyval :=
  match script with
  | [] => (Raise RequestException, [])
  | answer :: rest => (Ok answer, rest)
  end.

Definition not_found_error : pyval :=
  PDict [("code", PStr "BUSINESS_NOT_FOUND");
         ("description", PStr "The requested business could not be found.")].

Definition not_found_answer : pyval := PDict [("error", not_found_error)].

Definition jibarito : pyval :=
  PDict [("id", PStr "the-jibarito-stop-chicago-2");
         ("name", PStr "The Jibarito Stop")].

Definition match_answer : pyval := PDict [("businesses", PList [jibarito])].

Definition no_match_answer : pyval := PDict [("businesses", PList [])].

Definition three_reviews : pyval :=
  PList [PDict [("rating", PInt 5)]; PDict [("rating", PInt 4)];
         PDict [("rating", PInt 5)]].

Definition reviews_answer : pyval :=
  PDict [("reviews", three_reviews); ("total", PInt 112)].

(** The business the samples look up. *)
Definition name : pyval := PStr "jibarito shop".
Definition address : pyval := PStr "1646 W 18th St".
Definition city : pyval := PStr "Chicago".
Definition state_ : pyval := PStr "IL".
Definition country : pyval := PStr "US".
Definition api_key : pyval := PStr "k3y".

Definition fresh (script : list pyval) : Matches.state (list pyval) :=
  Matches.State (ApiState script [] 0) [].

(** A search answer of two businesses with their URLs, as text and as
    [json.loads] reads it. *)
Definition two_urls : pyval :=
  PDict [("total", PInt 2);
         ("businesses",
          PList [PDict [("name", PStr "Au Cheval");
                        ("url", PStr "https://www.yelp.com/biz/au-cheval-chicago")];
                 PDict [("name", PStr "Xoco");
                        ("url", PStr "https://www.yelp.com/biz/xoco-chicago")]])].

Definition json_loads (data : string) : result pyval :=
  if String.eqb data "<two urls>" then Ok two_urls else Raise ValueError.


(** A page whose only review gives its rating in words. *)
Definition wordy : Bs4.node :=
  Fixture.review_unit "Dee K." "five" "2017-03-04" "Loved it".

Definition BeautifulSoup (html : string) : Bs4.node :=
  if String.eqb html "<wordy>" then Fixture.page [] [Fixture.betsy; wordy]
  else Fixture.BeautifulSoup html.

(** A script of two pages: the first page of the fixture site, then the
    page whose second review has no date. *)
Definition broken_script : list string := ["<page 1>"; "<undated>"].

End Sample.

(** ** Pagination of the search API ([src/yelp_search.ipynb]) *)

Lemma page_count_nonpos (x : Z) : x <= 0 -> page_count x = 0%nat.
Proof.
  intros Hx. unfold page_count.
  assert ((x + 19) / 20 <= 0) by (apply Z.lt_succ_r, Z.div_lt_upper_bound; lia).
  lia.
Qed.

Lemma page_count_step (x : Z) : 0 < x -> page_count x = S (page_count (x - 20)).
Proof.
  intros Hx. unfold page_count.
  replace (x + 19) with ((x - 20 + 19) + 1 * 20) by lia.
  rewrite Z.div_add by lia.
  assert (0 <= (x - 20 + 19) / 20) by (apply Z.div_pos; lia).
  lia.
Qed.

Lemma page_count_ceiling (x : Z) :
  0 <= x -> x <= 20 * Z.of_nat (page_count x) < x + 20.
Proof.
  intros Hx. unfold page_count.
  assert (0 <= (x + 19) / 20) by (apply Z.div_pos; lia).
  rewrite Z2Nat.id by assumption.
  pose proof (Z.div_mod (x + 19) 20 ltac:(lia)).
  pose proof (Z.mod_pos_bound (x + 19) 20 ltac:(lia)).
  lia.
Qed.

Lemma offsets_from_done (start total : Z) :
  total <= start -> offsets_from start total = [].
Proof.
  intros H. unfold offsets_from. rewrite page_count_nonpos by lia. reflexivity.
Qed.

Lemma offsets_from_step (start total : Z) :
  start < total ->
  offsets_from start total = start :: offsets_from (start + 20) total.
Proof.
  intros H. unfold offsets_from.
  rewrite (page_count_step (x := total - start)) by lia.
  replace (total - start - 20) with (total - (start + 20)) by lia.
  cbn [seq map]. f_equal; [lia|].
  rewrite <- seq_shift, map_map.
  apply map_ext. intros i. lia.
Qed.

Lemma offsets_from_bounds (start total : Z) :
  Forall (fun o => start <= o < total) (offsets_from start total).
Proof.
  unfold offsets_from. apply Forall_forall. intros o Ho.
  apply in_map_iff in Ho. destruct Ho as [i [<- Hi]].
  apply in_seq in Hi.
  destruct (Z_lt_dec start total) as [Hlt|Hge].
  - pose proof (page_count_ceiling (x := total - start) ltac:(lia)). lia.
  - rewrite page_count_nonpos in Hi by lia. lia.
Qed.

Section ScraperPagination.

Variable World : Type.
Variable requests_get_json : request -> World -> result pyval * World.

Local Abbreviation state := (api_state World).

(** The loop returns the pages it was given followed by one request per
    offset still below [total], and pauses once per request built. *)
Lemma pages_loop_spec (api_key location : string) (total offset_ : Z)
  (pages : list request) (st : state) :
  Scraper.pages_loop api_key location total offset_ pages st =
  (Ok (pages ++ map (ScraperSpec.page_request api_key location)
                  (offsets_from offset_ total)),
   ApiState (world st) (sent st)
     (sleeps st + page_count (total - offset_))).
Proof.
  funelim (Scraper.pages_loop api_key location total offset_ pages st).
  - rewrite H. rewrite (offsets_from_step (start := offset_) (total := total)) by assumption.
    rewrite (page_count_step (x := total - offset_)) by lia.
    replace (total - offset_ - 20) with (total - (offset_ + 20)) by lia.
    cbn [map]. rewrite <- app_assoc. cbn [app pause sleeps world sent].
    do 2 f_equal. lia.
  - rewrite offsets_from_done by lia. rewrite page_count_nonpos by lia.
    cbn [map]. rewrite app_nil_r, Nat.add_0_r. destruct st; reflexivity.
Qed.

End ScraperPagination.

Section ScraperRuns.

Variable World : Type.
Variable requests_get_json : request -> World -> result pyval * World.

Local Abbreviation state := (api_state World).

(** The turn of the loop that raises: the request of that turn is the last
    one sent. *)
Ltac cut_short Hrun :=
  injection Hrun as <- <-; exists 1%nat; cbn;
  split; [lia|]; split; [reflexivity|discriminate].

(** Whatever the answers are, the loop of [all_restaurants] sends an initial
    segment of the requests it was given, and all of them when it returns. *)
Lemma fetch_pages_sent (pages : list request) :
  forall (acc : list pyval) (st st' : state) (r : result (list pyval)),
    Scraper.fetch_pages requests_get_json pages acc st = (r, st') ->
    exists j,
      (j <= List.length pages)%nat
      /\ sent st' = sent st ++ firstn j pages
      /\ (is_ok r = true -> j = List.length pages).
Proof.
  induction pages as [|page rest IH]; intros acc st st' r Hrun.
  - exists 0%nat. cbn in Hrun. injection Hrun as <- <-.
    cbn. rewrite app_nil_r. auto.
  - cbn [Scraper.fetch_pages] in Hrun. unfold bind at 1 in Hrun.
    unfold http_get in Hrun.
    destruct (requests_get_json page (world st)) as [[content|e] w1].
    2:{ cut_short Hrun. }
    unfold bind at 1 in Hrun. unfold lift at 1 in Hrun.
    destruct (Py.getitem content "businesses") as [page_data|e].
    2:{ cut_short Hrun. }
    unfold bind at 1 in Hrun. unfold lift at 1 in Hrun.
    destruct (Py.append_items acc page_data) as [acc'|e].
    2:{ cut_short Hrun. }
    unfold bind at 1 in Hrun. unfold sleep at 1 in Hrun.
    destruct (IH _ _ _ _ Hrun) as [j [Hj [Hsent Hok]]].
    exists (S j). split; [cbn; lia|]. split.
    + rewrite Hsent. cbn. rewrite <- app_assoc. reflexivity.
    + intros H. cbn. f_equal. auto.
Qed.

(** When every answer carries a [businesses] array, the loop returns the
    arrays appended to what it started from, having sent every request and
    paused after each. *)
Lemma fetch_pages_ok (pages : list request) :
  forall (acc : list pyval) (st : state) (answers : list (result pyval))
    (w' : World) (arrays : list (list pyval)),
    serve requests_get_json (world st) pages = (answers, w') ->
    Forall2 carries_businesses answers arrays ->
    Scraper.fetch_pages requests_get_json pages acc st
    = (Ok (acc ++ List.concat arrays),
       ApiState w' (sent st ++ pages) (sleeps st + List.length pages)).
Proof.
  induction pages as [|page rest IH]; intros acc st answers w' arrays Hserve Hall.
  - cbn in Hserve. injection Hserve as <- <-. inversion Hall; subst.
    cbn. rewrite !app_nil_r, Nat.add_0_r. destruct st; reflexivity.
  - cbn [serve] in Hserve.
    destruct (requests_get_json page (world st)) as [answer w1] eqn:Hget.
    destruct (serve requests_get_json w1 rest) as [answers' w2] eqn:Hrest.
    injection Hserve as <- <-.
    inversion Hall as [|a b as' bs' [content [-> Hb]] Hall' E1 E2]; subst.
    cbn [Scraper.fetch_pages]. unfold bind at 1. unfold http_get. rewrite Hget.
    unfold bind at 1. unfold lift at 1. rewrite Hb.
    unfold bind at 1. unfold lift at 1. cbn [Py.append_items].
    unfold bind at 1. unfold sleep at 1.
    rewrite (IH (acc ++ b) (pause (ApiState w1 (sent st ++ [page]) (sleeps st)))
               answers' w2 bs' Hrest Hall').
    cbn [pause world sent sleeps List.concat List.length].
    rewrite <- !app_assoc. cbn [app]. rewrite Nat.add_succ_r. reflexivity.
Qed.

(** [all_restaurants] once the probe has been answered with a total. *)
Lemma all_restaurants_after_probe (api_key location : string) (st : state)
  (content total_items : pyval) (w' : World) (total : Z) :
  requests_get_json (ScraperSpec.probe_request api_key location) (world st)
  = (Ok content, w') ->
  Py.getitem content "total" = Ok total_items ->
  Py.as_int total_items = Ok total ->
  Scraper.all_restaurants requests_get_json api_key location st
  = Scraper.fetch_pages requests_get_json
      (map (ScraperSpec.page_request api_key location) (offsets total)) []
      (ApiState w'
         (sent st ++ [ScraperSpec.probe_request api_key location])
         (sleeps st + page_count total)).
Proof.
  intros Hprobe Htotal Hint.
  unfold Scraper.all_restaurants.
  change (Scraper.location_search_params api_key location [("offset", PInt 0)])
    with (ScraperSpec.probe_request api_key location).
  destruct (ScraperSpec.probe_request api_key location) as [[url headers] url_params] eqn:Hreq.
  unfold bind at 1. unfold http_get. rewrite Hprobe.
  unfold bind at 1. unfold lift at 1. rewrite Htotal.
  unfold bind at 1. unfold lift at 1. rewrite Hint.
  unfold bind at 1. unfold Scraper.paginated_restaurant_search_requests.
  rewrite pages_loop_spec. cbn [app world sent sleeps].
  unfold offsets. rewrite Z.sub_0_r. reflexivity.
Qed.

End ScraperRuns.

(** C1.  When the probe of [all_restaurants] reports a total [total >= 0],
    the paged requests are the ones for the offsets [0, 20, 40, ...] below
    [total], [ceil(total / 20)] of them (the least [k] with [total <= 20 k]);
    they are sent after the single probe, in that order.  A run that returns
    has sent exactly the probe and every paged request; a run in which every
    paged answer carries a [businesses] array does return; a run cut short by
    an exception has sent the probe and an initial segment of them.  With
    [total = 0] the run sends the probe only and returns the empty list. *)
Theorem all_restaurants_requests :
  forall (World : Type)
    (requests_get_json : request -> World -> result pyval * World)
    (api_key location : string) (st : api_state World)
    (content : pyval) (w' : World) (total : Z),
    requests_get_json (ScraperSpec.probe_request api_key location) (world st)
    = (Ok content, w') ->
    Py.getitem content "total" = Ok (PInt total) ->
    0 <= total ->
    let probe := ScraperSpec.probe_request api_key location in
    let pages := map (ScraperSpec.page_request api_key location) (offsets total) in
    let run := Scraper.all_restaurants requests_get_json api_key location st in
    offsets total = map (fun i => 20 * Z.of_nat i) (seq 0 (page_count total))
    /\ List.length pages = page_count total
    /\ total <= 20 * Z.of_nat (page_count total) < total + 20
    /\ Forall (fun o => 0 <= o < total) (offsets total)
    /\ fst (Scraper.paginated_restaurant_search_requests api_key location total st)
       = Ok pages
    /\ (exists j, (j <= List.length pages)%nat
                  /\ sent (snd run) = sent st ++ probe :: firstn j pages)
    /\ (is_ok (fst run) = true -> sent (snd run) = sent st ++ probe :: pages)
    /\ (forall answers w'',
          serve requests_get_json w' pages = (answers, w'') ->
          Forall (fun a => exists b, carries_businesses a b) answers ->
          is_ok (fst run) = true)
    /\ (total = 0 ->
        run = (Ok [], ApiState w' (sent st ++ [probe]) (sleeps st))).
Proof.
  intros World get api_key location st content w' total Hprobe Htotal Hpos
    probe pages run.
  assert (Hrun : run = Scraper.fetch_pages get pages []
                         (ApiState w' (sent st ++ [probe])
                            (sleeps st + page_count total))).
  { subst run. eapply all_restaurants_after_probe; eauto. }
  split.
  { unfold offsets, offsets_from. rewrite Z.sub_0_r. reflexivity. }
  split.
  { subst pages. unfold offsets, offsets_from.
    rewrite !length_map, length_seq, Z.sub_0_r. reflexivity. }
  split; [apply page_count_ceiling; assumption|].
  split; [apply offsets_from_bounds|].
  split.
  { unfold Scraper.paginated_restaurant_search_requests.
    rewrite pages_loop_spec. reflexivity. }
  destruct run as [r st'] eqn:Erun.
  symmetry in Hrun. destruct (fetch_pages_sent _ _ _ _ Hrun) as [j [Hj [Hsent Hall]]].
  cbn [sent] in Hsent. cbn [fst snd].
  split.
  { exists j. split; [assumption|]. rewrite Hsent, <- app_assoc. reflexivity. }
  split.
  { intros Hok. rewrite Hsent, (Hall Hok), firstn_all, <- app_assoc. reflexivity. }
  split.
  { intros answers w'' Hserve Hans.
    assert (exists arrays, Forall2 carries_businesses answers arrays) as [arrays Harr].
    { clear - Hans. induction Hans as [|a l [b Hb] _ [bs IH]].
      - exists []. constructor.
      - exists (b :: bs). constructor; assumption. }
    rewrite (fetch_pages_ok get pages [] (ApiState w' (sent st ++ [probe])
               (sleeps st + page_count total)) Hserve Harr) in Hrun.
    injection Hrun as <- _. reflexivity. }
  intros ->. subst pages. cbn in Hrun. rewrite Nat.add_0_r in Hrun.
  rewrite <- Hrun. reflexivity.
Qed.

(** C1, at a service reporting a total of 45: three paged requests, at the
    offsets 0, 20 and 40, after the probe. *)
Lemma all_restaurants_requests_witness :
  Fixture.steady
    (ScraperSpec.probe_request Fixture.api_key Fixture.location) tt
  = (Ok Fixture.steady_answer, tt)
  /\ Py.getitem Fixture.steady_answer "total" = Ok (PInt 45)
  /\ 0 <= 45
  /\ sent (snd (Scraper.all_restaurants Fixture.steady Fixture.api_key
                  Fixture.location (Fixture.fresh tt)))
     = ScraperSpec.probe_request Fixture.api_key Fixture.location
       :: map (ScraperSpec.page_request Fixture.api_key Fixture.location)
            [0; 20; 40].
Proof.
  split; [reflexivity|]. split; [reflexivity|]. split; [lia|].
  destruct (@all_restaurants_requests unit Fixture.steady Fixture.api_key
              Fixture.location (Fixture.fresh tt)
              Fixture.steady_answer tt 45 eq_refl eq_refl ltac:(lia))
    as (_ & _ & _ & _ & _ & _ & Hsent & _).
  apply Hsent. reflexivity.
Defined.

(** A run cut short: the service answers the first paged request with an
    error body, [all_restaurants] raises [KeyError] and the two paged
    requests left are never sent. *)
Example all_restaurants_cut_short :
  Scraper.all_restaurants Fixture.failing Fixture.api_key Fixture.location
    (Fixture.fresh 0%nat)
  = (Raise KeyError,
     ApiState 2%nat
       [ScraperSpec.probe_request Fixture.api_key Fixture.location;
        ScraperSpec.page_request Fixture.api_key Fixture.location 0]
       3).
Proof. reflexivity. Qed.

(** C7.  When the probe is answered with a total and every paged answer
    carries a [businesses] array, [all_restaurants] returns those arrays
    concatenated in the order of the requests, nothing cut and nothing added:
    the length of the result is the sum of the arrays' lengths.  That length
    need not be the probed total. *)
Theorem all_restaurants_concatenates :
  (forall (World : Type)
     (requests_get_json : request -> World -> result pyval * World)
     (api_key location : string) (st : api_state World)
     (content total_items : pyval) (total : Z) (w' w'' : World)
     (answers : list (result pyval)) (arrays : list (list pyval)),
     let probe := ScraperSpec.probe_request api_key location in
     let pages := map (ScraperSpec.page_request api_key location) (offsets total) in
     requests_get_json probe (world st) = (Ok content, w') ->
     Py.getitem content "total" = Ok total_items ->
     Py.as_int total_items = Ok total ->
     serve requests_get_json w' pages = (answers, w'') ->
     Forall2 carries_businesses answers arrays ->
     Scraper.all_restaurants requests_get_json api_key location st
     = (Ok (List.concat arrays),
        ApiState w'' (sent st ++ probe :: pages)
          (sleeps st + page_count total + List.length pages))
     /\ List.length (List.concat arrays) = list_sum (map (@List.length pyval) arrays))
  /\ (exists (World : Type)
        (requests_get_json : request -> World -> result pyval * World)
        (api_key location : string) (st st' : api_state World)
        (content : pyval) (w' : World) (total : Z) (businesses : list pyval),
        requests_get_json (ScraperSpec.probe_request api_key location) (world st)
        = (Ok content, w')
        /\ Py.getitem content "total" = Ok (PInt total)
        /\ Scraper.all_restaurants requests_get_json api_key location st
           = (Ok businesses, st')
        /\ Z.of_nat (List.length businesses) <> total).
Proof.
  split.
  - intros World get api_key location st content total_items total w' w''
      answers arrays probe pages Hprobe Htotal Hint Hserve Harr.
    split.
    + rewrite (all_restaurants_after_probe get api_key location st Hprobe Htotal Hint).
      fold pages. fold probe.
      rewrite (fetch_pages_ok get pages []
                 (ApiState w' (sent st ++ [probe]) (sleeps st + page_count total))
                 Hserve Harr).
      cbn [app world sent sleeps]. rewrite <- app_assoc. reflexivity.
    + clear. induction arrays as [|b bs IH]; [reflexivity|].
      cbn [List.concat map list_sum]. rewrite length_app, IH. reflexivity.
  - exists unit, Fixture.steady, "k", "Greektown, Chicago, IL", (Fixture.fresh tt).
    eexists. exists Fixture.steady_answer, tt, 45. eexists.
    split; [reflexivity|]. split; [reflexivity|].
    split; [vm_compute; reflexivity|].
    cbn. discriminate.
Qed.

(** C7, at the steady service: three pages of two businesses each. *)
Lemma all_restaurants_concatenates_witness :
  Fixture.steady
    (ScraperSpec.probe_request Fixture.api_key Fixture.location) tt
  = (Ok Fixture.steady_answer, tt)
  /\ Py.getitem Fixture.steady_answer "total" = Ok (PInt 45)
  /\ Py.as_int (PInt 45) = Ok 45
  /\ Forall2 carries_businesses
       [Ok Fixture.steady_answer; Ok Fixture.steady_answer; Ok Fixture.steady_answer]
       [Fixture.two_businesses; Fixture.two_businesses; Fixture.two_businesses]
  /\ fst (Scraper.all_restaurants Fixture.steady Fixture.api_key
             Fixture.location (Fixture.fresh tt))
     = Ok (Fixture.two_businesses ++ Fixture.two_businesses
           ++ Fixture.two_businesses).
Proof.
  assert (Hcarry : Forall2 carries_businesses
            [Ok Fixture.steady_answer; Ok Fixture.steady_answer;
             Ok Fixture.steady_answer]
            [Fixture.two_businesses; Fixture.two_businesses;
             Fixture.two_businesses]).
  { repeat constructor; exists Fixture.steady_answer; split; reflexivity. }
  split; [reflexivity|]. split; [reflexivity|]. split; [reflexivity|].
  split; [exact Hcarry|].
  destruct all_restaurants_concatenates as [Hcat _].
  destruct (Hcat unit Fixture.steady Fixture.api_key Fixture.location
              (Fixture.fresh tt) Fixture.steady_answer (PInt 45) 45 tt tt
              _ _ eq_refl eq_refl eq_refl eq_refl Hcarry)
    as [Hrun _].
  rewrite Hrun. reflexivity.
Defined.

(** C10.  [yelp_search] of [src/yelp_search.ipynb] does not look at its
    [offset] argument: whatever it is, the run is the one for [offset = 0],
    and the single request sent carries [offset = 0]. *)
Theorem yelp_search_ignores_offset :
  forall (World : Type)
    (requests_get_json : request -> World -> result pyval * World)
    (api_key location : string) (offset : pyval) (st : api_state World),
    Scraper.yelp_search requests_get_json api_key location offset st
    = Scraper.yelp_search requests_get_json api_key location (PInt 0) st
    /\ sent (snd (Scraper.yelp_search requests_get_json api_key location offset st))
       = sent st
         ++ [("https://api.yelp.com/v3/businesses/search",
              [("Authorization", PStr ("Bearer " ++ api_key)%string)],
              [("location", PStr (Py.replace_spaces location));
               ("offset", PInt 0)])].
Proof.
  intros World get api_key location offset st. split; [reflexivity|].
  unfold Scraper.yelp_search, Scraper.location_search_params, api_get_request.
  cbn [Py.dict_update fold_left Py.dict_set fst snd String.eqb Ascii.eqb Bool.eqb].
  unfold bind at 1. unfold http_get.
  destruct (get _ (world st)) as [[response_json|e] w1]; [|reflexivity].
  unfold bind, lift, ret.
  destruct (Py.getitem response_json "total"); [|reflexivity].
  destruct (Py.getitem response_json "businesses") as [b|]; [|reflexivity].
  destruct (Py.list_of b); reflexivity.
Qed.

(** ** Pagination of the search API ([src/unnamed/part_000]) *)

Section FusionRuns.

Variable World : Type.
Variable requests_get_json : request -> World -> result pyval * World.
Variable py_str : pyval -> string.

(** [get_url_params] takes two positional arguments: a call with more of
    them raises. *)
Lemma get_url_params_arity (a b c : pyval) (more : list pyval) (kwargs : dict) :
  Fusion.get_url_params py_str (a :: b :: c :: more) kwargs = Raise TypeError.
Proof.
  unfold Fusion.get_url_params. cbn [Py.bind_arguments].
  destruct (Py.dict_get kwargs "url_addition"); [reflexivity|].
  destruct (Py.dict_get kwargs "api_key"); reflexivity.
Qed.

(** The loop of [paginated_restaurant_search_requests] raises in its first
    turn, if it has one. *)
Lemma fusion_pages_loop_raises (api_key location : pyval)
  (total current_offset : Z) (pages : list request) (st : api_state World) :
  current_offset < total ->
  Fusion.pages_loop py_str api_key location total current_offset pages st
  = (Raise TypeError, st).
Proof.
  funelim (Fusion.pages_loop py_str api_key location total current_offset pages st);
    intros Hlt; [|contradiction].
  rewrite get_url_params_arity. reflexivity.
Qed.

Lemma fusion_pages_loop_skips (api_key location : pyval)
  (total current_offset : Z) (pages : list request) (st : api_state World) :
  total <= current_offset ->
  Fusion.pages_loop py_str api_key location total current_offset pages st
  = (Ok pages, st).
Proof.
  funelim (Fusion.pages_loop py_str api_key location total current_offset pages st);
    intros Hge; [lia|reflexivity].
Qed.

End FusionRuns.

(** C8.  In [src/unnamed/part_000], [paginated_restaurant_search_requests]
    hands [get_url_params] three positional arguments, one more than its
    signature takes, so for every [total > 0] it raises [TypeError] in the
    first turn of its loop, before any pause.  [all_restaurants] therefore
    raises [TypeError], having sent the probe only, whenever the probed total
    is positive, and returns the empty list when it is 0: for a count
    ([total >= 0]) it returns exactly when [total = 0]. *)
Theorem fusion_pagination_raises :
  forall (World : Type)
    (requests_get_json : request -> World -> result pyval * World)
    (py_str : pyval -> string) (api_key loc : pyval) (st : api_state World),
    (forall (offset : Z),
        Fusion.get_url_params py_str [PStr "/search"; api_key; loc]
          [("offset", PInt offset); ("limit", PInt 20);
           ("categories", PStr "restaurants")]
        = Raise TypeError)
    /\ (forall total, 0 < total ->
          Fusion.paginated_restaurant_search_requests py_str api_key loc total st
          = (Raise TypeError, st))
    /\ (forall (content : pyval) (w' : World) (total : Z),
          let probe := FusionSpec.probe_request py_str api_key loc in
          let run := Fusion.all_restaurants requests_get_json py_str api_key loc st in
          let st' := ApiState w' (sent st ++ [probe]) (sleeps st) in
          requests_get_json probe (world st) = (Ok content, w') ->
          Py.getitem content "total" = Ok (PInt total) ->
          (0 < total -> run = (Raise TypeError, st'))
          /\ (total = 0 -> run = (Ok [], st'))
          /\ (0 <= total -> (is_ok (fst run) = true <-> total = 0))).
Proof.
  intros World get py_str api_key loc st.
  split; [intros; apply get_url_params_arity|].
  split.
  { intros total Hpos. unfold Fusion.paginated_restaurant_search_requests.
    apply fusion_pages_loop_raises. assumption. }
  intros content w' total probe run st' Hprobe Htotal.
  assert (Hrun : run = match Fusion.pages_loop py_str api_key loc total 0 [] st' with
                       | (Ok pages, s) => Fusion.fetch_pages get pages [] s
                       | (Raise e, s) => (Raise e, s)
                       end).
  { subst run. unfold Fusion.all_restaurants.
    change (Fusion.get_url_params py_str [PStr "/search"; api_key]
              [("location", loc); ("offset", PInt 0)])
      with (Ok probe).
    unfold bind at 1. unfold lift at 1. cbv iota beta.
    unfold probe at 1, FusionSpec.probe_request. cbv iota beta.
    unfold bind at 1. unfold api_get_request at 1. unfold http_get.
    match goal with
    | |- context [get ?req (world st)] =>
        change (get req (world st)) with (get probe (world st));
        change (sent st ++ [req]) with (sent st ++ [probe])
    end.
    rewrite Hprobe.
    unfold bind at 1. unfold lift at 1. rewrite Htotal.
    unfold bind at 1. unfold lift at 1. cbn [Py.as_int].
    unfold bind at 1. unfold Fusion.paginated_restaurant_search_requests.
    reflexivity. }
  assert (Hpos : 0 < total -> run = (Raise TypeError, st')).
  { intros Hlt. rewrite Hrun, fusion_pages_loop_raises by assumption.
    reflexivity. }
  assert (Hzero : total = 0 -> run = (Ok [], st')).
  { intros Hz. rewrite Hrun, fusion_pages_loop_skips by lia. reflexivity. }
  split; [assumption|]. split; [assumption|].
  intros Hnonneg. split.
  - intros Hok. destruct (Z.eq_dec total 0) as [|Hne]; [assumption|].
    rewrite Hpos in Hok by lia. discriminate.
  - intros Hz. rewrite (Hzero Hz). reflexivity.
Qed.

(** C8, at the steady service (total 45) and at the deserted one (total 0). *)
Lemma fusion_pagination_raises_witness :
  (0 < 45
   /\ Fixture.steady
        (FusionSpec.probe_request Fixture.str_of (PStr Fixture.api_key)
           (PStr Fixture.location)) tt
      = (Ok Fixture.steady_answer, tt)
   /\ Py.getitem Fixture.steady_answer "total" = Ok (PInt 45)
   /\ Fusion.all_restaurants Fixture.steady Fixture.str_of
        (PStr Fixture.api_key) (PStr Fixture.location) (Fixture.fresh tt)
      = (Raise TypeError,
         ApiState tt
           [FusionSpec.probe_request Fixture.str_of (PStr Fixture.api_key)
              (PStr Fixture.location)] 0))
  /\ (0 <= 0
      /\ Fixture.deserted
           (FusionSpec.probe_request Fixture.str_of (PStr Fixture.api_key)
              (PStr Fixture.location)) tt
         = (Ok Fixture.empty_answer, tt)
      /\ Py.getitem Fixture.empty_answer "total" = Ok (PInt 0)
      /\ is_ok (fst (Fusion.all_restaurants Fixture.deserted Fixture.str_of
                       (PStr Fixture.api_key) (PStr Fixture.location)
                       (Fixture.fresh tt)))
         = true).
Proof.
  split.
  - split; [lia|]. split; [reflexivity|]. split; [reflexivity|].
    destruct (@fusion_pagination_raises unit Fixture.steady Fixture.str_of
                (PStr Fixture.api_key) (PStr Fixture.location)
                (Fixture.fresh tt)) as (_ & _ & Hall).
    destruct (Hall Fixture.steady_answer tt 45 eq_refl eq_refl) as (Hpos & _ & _).
    apply Hpos. lia.
  - split; [lia|]. split; [reflexivity|]. split; [reflexivity|].
    destruct (@fusion_pagination_raises unit Fixture.deserted Fixture.str_of
                (PStr Fixture.api_key) (PStr Fixture.location)
                (Fixture.fresh tt)) as (_ & _ & Hall).
    destruct (Hall Fixture.empty_answer tt 0 eq_refl eq_refl) as (_ & _ & Hiff).
    apply (Hiff ltac:(lia)). reflexivity.
Defined.

(** ** The review parser *)

Lemma find_head_filter {A : Type} (p : A -> bool) (l : list A) :
  match filter p l with [] => None | x :: _ => Some x end = List.find p l.
Proof.
  induction l as [|x l IH]; [reflexivity|].
  cbn. destruct (p x); [reflexivity|exact IH].
Qed.

(** [find] returns the first descendant, in document order, that passes the
    filter. *)
Lemma bs4_find_first (name : option string) (kwattrs : list (string * string))
  (n : Bs4.node) :
  Bs4.find name kwattrs n
  = List.find (Bs4.matches name kwattrs) (Bs4.descendants n).
Proof. unfold Bs4.find, Bs4.find_all. apply find_head_filter. Qed.

Lemma find_ext {A : Type} (p q : A -> bool) (l : list A) :
  (forall x, p x = q x) -> List.find p l = List.find q l.
Proof.
  intros H. induction l as [|x l IH]; [reflexivity|].
  cbn. rewrite H, IH. reflexivity.
Qed.

Lemma matches_next_link (n : Bs4.node) :
  Bs4.matches (Some "link") [("rel", "next")] n = Doc.is_next_link n.
Proof.
  destruct n; [|reflexivity..]. cbn [Bs4.matches Doc.is_next_link forallb fst snd].
  unfold Doc.has_value. rewrite andb_true_r. reflexivity.
Qed.

Lemma matches_review_unit (n : Bs4.node) :
  Bs4.matches (Some "div") [("itemprop", "review")] n = Doc.is_review_unit n.
Proof.
  destruct n; [|reflexivity..]. cbn [Bs4.matches Doc.is_review_unit forallb fst snd].
  unfold Doc.has_value. rewrite andb_true_r. reflexivity.
Qed.

Lemma matches_itemprop (prop : string) (n : Bs4.node) :
  Bs4.matches None [("itemprop", prop)] n = Doc.has_itemprop prop n.
Proof.
  destruct n; [|reflexivity..]. cbn [Bs4.matches Doc.has_itemprop forallb fst snd].
  unfold Doc.has_value. rewrite andb_true_r. reflexivity.
Qed.

Lemma matches_paragraph (n : Bs4.node) :
  Bs4.matches (Some "p") [] n = Doc.is_paragraph n.
Proof.
  destruct n; [|reflexivity..]. cbn [Bs4.matches Doc.is_paragraph forallb].
  apply andb_true_r.
Qed.

Lemma find_all_review_units (soup : Bs4.node) :
  Bs4.find_all (Some "div") [("itemprop", "review")] soup = Doc.review_units soup.
Proof.
  unfold Bs4.find_all, Doc.review_units. apply filter_ext, matches_review_unit.
Qed.

Lemma find_paragraph (r : Bs4.node) :
  Bs4.find (Some "p") [] r = Doc.paragraph r.
Proof. rewrite bs4_find_first. apply find_ext, matches_paragraph. Qed.

Lemma find_next_link (soup : Bs4.node) :
  Bs4.find (Some "link") [("rel", "next")] soup
  = List.find Doc.is_next_link (Bs4.descendants soup).
Proof. rewrite bs4_find_first. apply find_ext, matches_next_link. Qed.

Lemma find_itemprop (prop : string) (r : Bs4.node) :
  Bs4.find None [("itemprop", prop)] r
  = List.find (Doc.has_itemprop prop) (Bs4.descendants r).
Proof. rewrite bs4_find_first. apply find_ext, matches_itemprop. Qed.

Section Parser.

Variable pyfloat : Type.
Variable float_of_string : string -> option pyfloat.
Variable float_of_int : Z -> pyfloat.
Variable BeautifulSoup : string -> Bs4.node.

Local Abbreviation parse_review := (Scraper.parse_review float_of_string float_of_int).
Local Abbreviation parse_reviews := (Scraper.parse_reviews float_of_string float_of_int).
Local Abbreviation parse_page :=
  (Scraper.parse_page float_of_string float_of_int BeautifulSoup).

(** Reading a field the way [parse_page] does gives the field's value, and
    raises when the unit has no such field. *)
Lemma attrs_of_field (prop : string) (r : Bs4.node) :
  match Doc.field prop r with
  | Some v =>
      Scraper.attrs_of (Bs4.find None [("itemprop", prop)] r) "content"
      = Ok (Bs4.to_py v)
  | None =>
      exists e,
        Scraper.attrs_of (Bs4.find None [("itemprop", prop)] r) "content"
        = Raise e
  end.
Proof.
  unfold Doc.field. rewrite find_itemprop.
  destruct (List.find (Doc.has_itemprop prop) (Bs4.descendants r)) as [t|] eqn:Hfind.
  - apply find_some in Hfind. destruct Hfind as [_ Ht].
    destruct t as [name attrs contents| |]; try discriminate.
    cbn [Scraper.attrs_of Bs4.attrs_getitem].
    destruct (Py.dict_get attrs "content"); eauto.
  - cbn. eauto.
Qed.

Lemma attrs_of_present (prop : string) (r : Bs4.node) (v : Bs4.attr_value) :
  Doc.field prop r = Some v ->
  Scraper.attrs_of (Bs4.find None [("itemprop", prop)] r) "content"
  = Ok (Bs4.to_py v).
Proof. intros H. pose proof (attrs_of_field prop r) as F. rewrite H in F. exact F. Qed.

Lemma attrs_of_absent (prop : string) (r : Bs4.node) :
  Doc.field prop r = None ->
  exists e,
    Scraper.attrs_of (Bs4.find None [("itemprop", prop)] r) "content" = Raise e.
Proof. intros H. pose proof (attrs_of_field prop r) as F. rewrite H in F. exact F. Qed.

(** A well-formed unit parses to its record. *)
Lemma parse_review_well_formed (r : Bs4.node) (rec : Scraper.review pyfloat) :
  Doc.record_of float_of_string r rec -> parse_review r = Ok rec.
Proof.
  intros (a & v & d & f & p & Ha & Hv & Hf & Hd & Hp & ->).
  unfold Scraper.parse_review.
  rewrite (attrs_of_present _ _ Ha), (attrs_of_present _ _ Hv),
    (attrs_of_present _ _ Hd), find_paragraph, Hp.
  cbn [rbind Bs4.to_py Scraper.float]. rewrite Hf. reflexivity.
Qed.

(** A unit that lacks a field makes the loop body raise. *)
Lemma parse_review_lacking (r : Bs4.node) :
  Doc.lacks_field r -> exists e, parse_review r = Raise e.
Proof.
  intros Hlack. unfold Scraper.parse_review.
  destruct (Scraper.attrs_of (Bs4.find None [("itemprop", "author")] r) "content")
    as [author|e] eqn:Ea; [|cbn; eauto].
  destruct (Scraper.attrs_of (Bs4.find None [("itemprop", "ratingValue")] r) "content")
    as [rating|e] eqn:Er; [|cbn; eauto].
  cbn [rbind].
  destruct (Scraper.float float_of_string float_of_int rating) as [f|e];
    [|cbn; eauto].
  destruct (Scraper.attrs_of (Bs4.find None [("itemprop", "datePublished")] r) "content")
    as [date|e] eqn:Ed; [|cbn; eauto].
  cbn [rbind]. rewrite find_paragraph.
  destruct (Doc.paragraph r) as [p|] eqn:Ep; [|cbn; eauto].
  exfalso. destruct Hlack as [H|[H|[H|H]]].
  - apply attrs_of_absent in H. destruct H as [e H]. congruence.
  - apply attrs_of_absent in H. destruct H as [e H]. congruence.
  - apply attrs_of_absent in H. destruct H as [e H]. congruence.
  - congruence.
Qed.

Lemma parse_reviews_well_formed (units : list Bs4.node) :
  forall (recs acc : list (Scraper.review pyfloat)),
    Forall2 (Doc.record_of float_of_string) units recs ->
    parse_reviews units acc = Ok (acc ++ recs).
Proof.
  induction units as [|r units IH]; intros recs acc Hall.
  - inversion Hall; subst. cbn. rewrite app_nil_r. reflexivity.
  - inversion Hall as [|r' rec units' recs' Hrec Hrest]; subst.
    cbn [Scraper.parse_reviews]. rewrite (parse_review_well_formed Hrec).
    cbn [rbind]. rewrite (IH _ _ Hrest), <- app_assoc. reflexivity.
Qed.

Lemma parse_reviews_raises (units : list Bs4.node) :
  forall (acc : list (Scraper.review pyfloat)) (r : Bs4.node),
    In r units ->
    (exists e, parse_review r = Raise e) ->
    exists e, parse_reviews units acc = Raise e.
Proof.
  induction units as [|u units IH]; intros acc r Hin Hraise; [contradiction|].
  cbn [Scraper.parse_reviews].
  destruct (parse_review u) as [rec|e] eqn:Eu; [|cbn; eauto].
  cbn [rbind]. destruct Hin as [->|Hin].
  - destruct Hraise as [e He]. congruence.
  - eapply IH; eauto.
Qed.

(** The continuation [parse_page] computes before it turns to the reviews. *)
Lemma parse_page_unfold (html : string) :
  parse_page html
  = match parse_reviews (Doc.review_units (BeautifulSoup html)) [] with
    | Ok reviews_list => Ok (reviews_list, Doc.continuation (BeautifulSoup html))
    | Raise e => Raise e
    end.
Proof.
  unfold Scraper.parse_page, Doc.continuation.
  rewrite find_next_link, find_all_review_units. reflexivity.
Qed.

End Parser.

Lemma well_formed_records {pyfloat : Type}
  (float_of_string : string -> option pyfloat) (units : list Bs4.node) :
  Forall (Doc.well_formed float_of_string) units ->
  exists recs, Forall2 (Doc.record_of float_of_string) units recs.
Proof.
  induction 1 as [|r units [rec Hrec] _ [recs IH]].
  - exists []. constructor.
  - exists (rec :: recs). constructor; assumption.
Qed.

Lemma find_first {A : Type} (p : A -> bool) (pre post : list A) (t : A) :
  p t = true -> (forall x, In x pre -> p x = false) ->
  List.find p (pre ++ t :: post) = Some t.
Proof.
  intros Ht Hpre. induction pre as [|x pre IH]; cbn.
  - rewrite Ht. reflexivity.
  - rewrite (Hpre x (or_introl eq_refl)). apply IH.
    intros y Hy. apply Hpre. right. exact Hy.
Qed.

Lemma find_nowhere {A : Type} (p : A -> bool) (l : list A) :
  (forall x, In x l -> p x = false) -> List.find p l = None.
Proof.
  intros H. induction l as [|x l IH]; [reflexivity|]. cbn.
  rewrite (H x (or_introl eq_refl)). apply IH.
  intros y Hy. apply H. right. exact Hy.
Qed.

(** C3.  On a document whose review units are all well formed (each carries
    its author, rating value and publication date as strings, the rating
    reading as a float, and has a paragraph below it), [parse_page] returns
    one record per unit, in document order: the record of the i-th unit has
    the float its rating value reads as, and its date is the string found in
    the markup.  On a document with no review unit it returns the empty list.
    In both cases the list comes with the continuation the document's "next"
    link, or its absence, determines. *)
Theorem parse_page_well_formed :
  forall (pyfloat : Type) (float_of_string : string -> option pyfloat)
    (float_of_int : Z -> pyfloat) (BeautifulSoup : string -> Bs4.node)
    (html : string),
    let soup := BeautifulSoup html in
    let parsed := Scraper.parse_page float_of_string float_of_int BeautifulSoup html in
    (Forall (Doc.well_formed float_of_string) (Doc.review_units soup) ->
     exists recs,
       parsed = Ok (recs, Doc.continuation soup)
       /\ List.length recs = List.length (Doc.review_units soup)
       /\ Forall2 (Doc.record_of float_of_string) (Doc.review_units soup) recs)
    /\ (Doc.review_units soup = [] ->
        parsed = Ok ([], Doc.continuation soup)).
Proof.
  intros pyfloat fos foi BS html soup parsed. subst parsed.
  rewrite parse_page_unfold. fold soup. split.
  - intros Hwf. destruct (well_formed_records Hwf) as [recs Hrecs].
    exists recs. rewrite (parse_reviews_well_formed foi _ Hrecs).
    split; [reflexivity|]. split; [|assumption].
    symmetry. eapply Forall2_length; eassumption.
  - intros ->. reflexivity.
Qed.

(** C3, at the third page of the fixture site: five well-formed units. *)
Lemma parse_page_well_formed_witness :
  Forall (Doc.well_formed Fixture.float_of_string)
    (Doc.review_units (Fixture.BeautifulSoup "<page 3>"))
  /\ exists recs,
       Scraper.parse_page Fixture.float_of_string Fixture.float_of_int
         Fixture.BeautifulSoup "<page 3>" = Ok (recs, PNone)
       /\ List.length recs = 5%nat.
Proof.
  assert (Hwf : Forall (Doc.well_formed Fixture.float_of_string)
                  (Doc.review_units (Fixture.BeautifulSoup "<page 3>"))).
  { assert (Hb : Doc.well_formed Fixture.float_of_string Fixture.betsy).
    { eexists. exists "Betsy F.", "5.0", "2016-10-01", 5.
      eexists. repeat split; reflexivity. }
    repeat constructor; exact Hb. }
  split; [exact Hwf|].
  destruct (@parse_page_well_formed Z Fixture.float_of_string
              Fixture.float_of_int Fixture.BeautifulSoup "<page 3>") as [Hall _].
  destruct (Hall Hwf) as (recs & Hparsed & Hlen & _).
  exists recs. split; [exact Hparsed|exact Hlen].
Defined.

(** C4.  On a document in which some review unit lacks the author, the
    rating value, the publication date or a paragraph, [parse_page] raises:
    the call returns no record list at all, whatever the other units are. *)
Theorem parse_page_missing_field :
  forall (pyfloat : Type) (float_of_string : string -> option pyfloat)
    (float_of_int : Z -> pyfloat) (BeautifulSoup : string -> Bs4.node)
    (html : string) (r : Bs4.node),
    In r (Doc.review_units (BeautifulSoup html)) ->
    Doc.lacks_field r ->
    exists e,
      Scraper.parse_page float_of_string float_of_int BeautifulSoup html = Raise e.
Proof.
  intros pyfloat fos foi BS html r Hin Hlack.
  rewrite parse_page_unfold.
  destruct (parse_reviews_raises fos foi (Doc.review_units (BS html)) [] r Hin
              (parse_review_lacking fos foi Hlack)) as [e He].
  exists e. rewrite He. reflexivity.
Qed.

(** C4, at the fixture page whose second unit has no publication date: the
    units before and after it are well formed, and the call raises. *)
Lemma parse_page_missing_field_witness :
  In Fixture.cy (Doc.review_units (Fixture.BeautifulSoup "<undated>"))
  /\ Doc.lacks_field Fixture.cy
  /\ exists e,
       Scraper.parse_page Fixture.float_of_string Fixture.float_of_int
         Fixture.BeautifulSoup "<undated>" = Raise e.
Proof.
  assert (Hin : In Fixture.cy
                  (Doc.review_units (Fixture.BeautifulSoup "<undated>"))).
  { right. left. reflexivity. }
  assert (Hlack : Doc.lacks_field Fixture.cy).
  { right. right. left. reflexivity. }
  split; [exact Hin|]. split; [exact Hlack|].
  exact (@parse_page_missing_field Z Fixture.float_of_string Fixture.float_of_int
           Fixture.BeautifulSoup "<undated>" Fixture.cy Hin Hlack).
Defined.

(** C6.  The continuation [parse_page] returns is decided by the "next"
    links of the document alone.  If the document has one, the first in
    document order decides, whatever follows it: the continuation is the
    value of its [href] attribute ([None] if it has none).  If the document
    has no "next" link, the continuation is [None]. *)
Theorem parse_page_continuation :
  forall (pyfloat : Type) (float_of_string : string -> option pyfloat)
    (float_of_int : Z -> pyfloat) (BeautifulSoup : string -> Bs4.node)
    (html : string) (recs : list (Scraper.review pyfloat)) (url_next : pyval),
    Scraper.parse_page float_of_string float_of_int BeautifulSoup html
    = Ok (recs, url_next) ->
    let nodes := Bs4.descendants (BeautifulSoup html) in
    (forall (before after : list Bs4.node) (name : string)
       (attrs : list (string * Bs4.attr_value)) (contents : list Bs4.node),
        nodes = before ++ Bs4.Tag name attrs contents :: after ->
        Doc.is_next_link (Bs4.Tag name attrs contents) = true ->
        (forall n, In n before -> Doc.is_next_link n = false) ->
        url_next = match Py.dict_get attrs "href" with
                   | Some v => Bs4.to_py v
                   | None => PNone
                   end)
    /\ ((forall n, In n nodes -> Doc.is_next_link n = false) ->
        url_next = PNone).
Proof.
  intros pyfloat fos foi BS html recs url_next Hparsed nodes.
  rewrite parse_page_unfold in Hparsed.
  destruct (Scraper.parse_reviews fos foi (Doc.review_units (BS html)) [])
    as [recs'|e]; [|discriminate].
  injection Hparsed as _ <-. unfold Doc.continuation. fold nodes. split.
  - intros before after name attrs contents Hnodes Hlink Hbefore.
    rewrite Hnodes, (@find_first _ _ _ after _ Hlink Hbefore). reflexivity.
  - intros Hnone. rewrite (@find_nowhere _ _ _ Hnone). reflexivity.
Qed.

(** C6, at the fixture page with two "next" links: the first one wins. *)
Lemma parse_page_continuation_witness :
  Scraper.parse_page Fixture.float_of_string Fixture.float_of_int
    Fixture.BeautifulSoup "<two links>"
  = Ok ([], PStr "https://yelp.test/first").
Proof.
  assert (Hparsed :
            Scraper.parse_page Fixture.float_of_string Fixture.float_of_int
              Fixture.BeautifulSoup "<two links>"
            = Ok ([], PStr "https://yelp.test/first")) by reflexivity.
  destruct (@parse_page_continuation Z Fixture.float_of_string
              Fixture.float_of_int Fixture.BeautifulSoup "<two links>" [] _
              Hparsed) as [Hfirst _].
  rewrite (Hfirst
             [Bs4.Comment "DOCTYPE HTML";
              Bs4.Tag "html" []
                [Bs4.Tag "head" []
                   [Bs4.Tag "title" [] [Bs4.NavigableString "The Jibarito Stop"];
                    Fixture.next_link "https://yelp.test/first";
                    Fixture.next_link "https://yelp.test/second"];
                 Bs4.Tag "body" [] []];
              Bs4.Tag "head" []
                [Bs4.Tag "title" [] [Bs4.NavigableString "The Jibarito Stop"];
                 Fixture.next_link "https://yelp.test/first";
                 Fixture.next_link "https://yelp.test/second"];
              Bs4.Tag "title" [] [Bs4.NavigableString "The Jibarito Stop"];
              Bs4.NavigableString "The Jibarito Stop"]
             [Fixture.next_link "https://yelp.test/second"; Bs4.Tag "body" [] []]
             "link"
             [("rel", Bs4.AttrList ["next"]);
              ("href", Bs4.AttrStr "https://yelp.test/first")]
             [] eq_refl eq_refl).
  - reflexivity.
  - intros n Hn. cbn in Hn.
    repeat (destruct Hn as [<-|Hn]; [reflexivity|]). contradiction.
Defined.

(** ** Following the continuation pointers *)

Lemma is_not_none_true (v : pyval) : v <> PNone -> Py.is_not_none v = true.
Proof. destruct v; [contradiction|reflexivity..]. Qed.

Lemma is_not_none_false (v : pyval) : Py.is_not_none v = false -> v = PNone.
Proof. destruct v; [reflexivity|discriminate..]. Qed.

Create HintDb chain.
#[local] Hint Constructors Chain.reaches Chain.leads_to : chain.

Section Paginator.

Variable pyfloat : Type.
Variable float_of_string : string -> option pyfloat.
Variable float_of_int : Z -> pyfloat.
Variable BeautifulSoup : string -> Bs4.node.
Variable Web : Type.
Variable html_fetcher : pyval -> Web -> (Z * string) * Web.

Local Abbreviation review := (Scraper.review pyfloat).
Local Abbreviation state := (Scraper.scrape_state Web).
Local Abbreviation page_of :=
  (Chain.page_of float_of_string float_of_int BeautifulSoup html_fetcher).
Local Abbreviation reaches :=
  (Chain.reaches float_of_string float_of_int BeautifulSoup html_fetcher).
Local Abbreviation follows :=
  (Chain.follows float_of_string float_of_int BeautifulSoup html_fetcher).
Local Abbreviation leads_to :=
  (Chain.leads_to float_of_string float_of_int BeautifulSoup html_fetcher).
Local Abbreviation follow :=
  (Scraper.follow float_of_string float_of_int BeautifulSoup html_fetcher).
Local Abbreviation extract_reviews :=
  (Scraper.extract_reviews float_of_string float_of_int BeautifulSoup html_fetcher).

(** One turn of the loop, on a pointer that is not [None]. *)
Lemma follow_turn (fuel : nat) (reviews : list review) (next_url : pyval)
  (st : state) :
  next_url <> PNone ->
  follow (S fuel) reviews next_url st
  = match page_of next_url (Scraper.web st) with
    | (Ok (reviews_temp, next_url_temp), w) =>
        follow fuel (reviews ++ reviews_temp) next_url_temp
          (Scraper.called next_url w st)
    | (Raise e, w) => (Some (Raise e), Scraper.called next_url w st)
    end.
Proof.
  intros Hnext. cbn [Scraper.follow]. rewrite (is_not_none_true Hnext).
  unfold Chain.page_of, Scraper.fetch.
  destruct (html_fetcher next_url (Scraper.web st)) as [[code html] w].
  cbn [snd].
  destruct (Scraper.parse_page float_of_string float_of_int BeautifulSoup html)
    as [[reviews_temp next_url_temp]|e]; reflexivity.
Qed.

Lemma follow_done (fuel : nat) (reviews : list review) (st : state) :
  follow fuel reviews PNone st = (Some (Ok reviews), st).
Proof. destruct fuel; reflexivity. Qed.

Lemma follow_starved (reviews : list review) (next_url : pyval) (st : state) :
  next_url <> PNone -> follow 0 reviews next_url st = (None, st).
Proof. intros H. cbn. rewrite (is_not_none_true H). reflexivity. Qed.

(** [extract_reviews] is the first fetch, then the loop. *)
Lemma extract_reviews_unfold (fuel : nat) (url : pyval) (st : state) :
  extract_reviews fuel url st
  = match page_of url (Scraper.web st) with
    | (Ok (reviews, next_url), w) =>
        follow fuel reviews next_url
          (Scraper.printed
             (substring 0 100 (snd (fst (html_fetcher url (Scraper.web st)))))
             (Scraper.called url w st))
    | (Raise e, w) => (Some (Raise e), Scraper.called url w st)
    end.
Proof.
  unfold Scraper.extract_reviews, Chain.page_of, Scraper.fetch.
  destruct (html_fetcher url (Scraper.web st)) as [[code html] w].
  cbn [fst snd].
  destruct (Scraper.parse_page float_of_string float_of_int BeautifulSoup html)
    as [[reviews next_url]|e]; reflexivity.
Qed.

(** With fuel for every page, the loop returns the records of the pages
    reached, after what it had, and has called the fetcher once per page. *)
Lemma follow_reaches (w w' : Web) (next_url : pyval)
  (pages : list (pyval * list review)) :
  reaches w next_url pages w' ->
  forall (fuel : nat) (reviews : list review) (st : state),
    Scraper.web st = w ->
    next_url <> PNone ->
    (List.length pages <= fuel)%nat ->
    follow fuel reviews next_url st
    = (Some (Ok (reviews ++ List.concat (map snd pages))),
       Scraper.ScrapeState w' (Scraper.fetched st ++ map fst pages)
         (Scraper.stdout st)).
Proof.
  induction 1 as [w w' url recs Hpage
                 |w w1 w' url next recs rest Hpage Hnext Hrest IH];
    intros fuel reviews st Hweb Hurl Hfuel; subst w.
  - destruct fuel as [|fuel]; [cbn in Hfuel; lia|].
    rewrite (follow_turn _ _ _ Hurl), Hpage, follow_done.
    cbn. rewrite app_nil_r. reflexivity.
  - destruct fuel as [|fuel]; [cbn in Hfuel; lia|].
    rewrite (follow_turn _ _ _ Hurl), Hpage.
    rewrite IH by (reflexivity || assumption || (cbn in Hfuel; lia)).
    cbn. rewrite <- !app_assoc. reflexivity.
Qed.

(** A loop that returns has reached [None]. *)
Lemma follow_returns (fuel : nat) :
  forall (reviews recs : list review) (next_url : pyval) (st st' : state),
    next_url <> PNone ->
    follow fuel reviews next_url st = (Some (Ok recs), st') ->
    exists pages, reaches (Scraper.web st) next_url pages (Scraper.web st').
Proof.
  induction fuel as [|fuel IH]; intros reviews recs next_url st st' Hurl Hrun.
  - rewrite (follow_starved _ _ Hurl) in Hrun. discriminate.
  - rewrite (follow_turn _ _ _ Hurl) in Hrun.
    destruct (page_of next_url (Scraper.web st))
      as [[[reviews_temp next_url_temp]|e] w] eqn:Hpage; [|discriminate].
    destruct (Py.is_not_none next_url_temp) eqn:Hnone.
    + assert (Hnext : next_url_temp <> PNone) by (intros ->; discriminate).
      apply (IH _ _ _ _ _ Hnext) in Hrun. destruct Hrun as [pages Hpages].
      eauto with chain.
    + apply is_not_none_false in Hnone. subst next_url_temp.
      rewrite follow_done in Hrun. injection Hrun as _ <-.
      eauto with chain.
Qed.

(** A loop that raises has met a page that does not parse. *)
Lemma follow_raises (fuel : nat) :
  forall (reviews : list review) (next_url : pyval) (st st' : state) (e : exn),
    follow fuel reviews next_url st = (Some (Raise e), st') ->
    exists url w, fst (page_of url w) = Raise e.
Proof.
  induction fuel as [|fuel IH]; intros reviews next_url st st' e Hrun.
  - cbn in Hrun. destruct (Py.is_not_none next_url); discriminate.
  - destruct (Py.is_not_none next_url) eqn:Hnone.
    2:{ cbn in Hrun. rewrite Hnone in Hrun. discriminate. }
    assert (Hurl : next_url <> PNone) by (intros ->; discriminate).
    rewrite (follow_turn _ _ _ Hurl) in Hrun.
    destruct (page_of next_url (Scraper.web st))
      as [[[reviews_temp next_url_temp]|e'] w] eqn:Hpage.
    + eapply IH. eassumption.
    + injection Hrun as -> _. exists next_url, (Scraper.web st).
      rewrite Hpage. reflexivity.
Qed.

(** On a cycle the loop outlasts any fuel. *)
Lemma follow_cycle (c : Chain.config Web) :
  (exists c', follows c c' /\ leads_to c' c) ->
  forall (fuel : nat) (next_url : pyval) (reviews : list review) (st : state),
    next_url <> PNone ->
    leads_to (Scraper.web st, next_url) c ->
    fst (follow fuel reviews next_url st) = None.
Proof.
  intros Hcycle.
  induction fuel as [|fuel IH]; intros next_url reviews st Hnext Hleads.
  - rewrite (follow_starved _ _ Hnext). reflexivity.
  - rewrite (follow_turn _ _ _ Hnext).
    assert (exists c1, follows (Scraper.web st, next_url) c1 /\ leads_to c1 c)
      as ([w1 next] & (recs & Hpage & Hnn) & Hback).
    { inversion Hleads; subst; eauto. }
    cbn [fst snd] in Hpage, Hnn. rewrite Hpage. apply IH; assumption.
Qed.

(** Two fetchers with the same bodies and the same effect on their state
    take the loop through the same turns. *)
Lemma follow_same_bodies (fetch' : pyval -> Web -> (Z * string) * Web) :
  (forall url w,
      snd (fst (html_fetcher url w)) = snd (fst (fetch' url w))
      /\ snd (html_fetcher url w) = snd (fetch' url w)) ->
  forall (fuel : nat) (reviews : list review) (next_url : pyval) (st : state),
    follow fuel reviews next_url st
    = Scraper.follow float_of_string float_of_int BeautifulSoup fetch'
        fuel reviews next_url st.
Proof.
  intros Hsame. induction fuel as [|fuel IH]; intros reviews next_url st.
  - reflexivity.
  - cbn [Scraper.follow]. destruct (Py.is_not_none next_url); [|reflexivity].
    unfold Scraper.fetch.
    destruct (Hsame next_url (Scraper.web st)) as [Hbody Hweb].
    destruct (html_fetcher next_url (Scraper.web st)) as [[code html] w],
      (fetch' next_url (Scraper.web st)) as [[code' html'] w'].
    cbn [fst snd] in Hbody, Hweb. subst html' w'.
    destruct (Scraper.parse_page float_of_string float_of_int BeautifulSoup html)
      as [[reviews_temp next_url_temp]|e]; [apply IH|reflexivity].
Qed.

(** With fuel for the pages after the first, [extract_reviews] returns the
    records of the pages reached and has called the fetcher once per page. *)
Lemma extract_reviews_reaches (url : pyval) (pages : list (pyval * list review))
  (fuel : nat) (st : state) (w' : Web) :
  reaches (Scraper.web st) url pages w' ->
  (List.length pages <= S fuel)%nat ->
  extract_reviews fuel url st
  = (Some (Ok (List.concat (map snd pages))),
     Scraper.ScrapeState w'
       (Scraper.fetched st ++ map fst pages)
       (Scraper.stdout st
        ++ [substring 0 100 (snd (fst (html_fetcher url (Scraper.web st))))])).
Proof.
  intros Hreach Hfuel. rewrite extract_reviews_unfold.
  inversion Hreach
    as [w0 w0' url' recs Hpage|w0 w1 w0' url' next recs rest Hpage Hnext Hrest];
    subst.
  - rewrite Hpage, follow_done. cbn. rewrite app_nil_r. reflexivity.
  - rewrite Hpage.
    erewrite follow_reaches;
      [|eassumption|reflexivity|assumption|cbn in Hfuel; lia].
    cbn. rewrite <- app_assoc. reflexivity.
Qed.

End Paginator.

(** C2.  When following the continuation pointers from the start URL ends
    at [None] after the pages [pages], [extract_reviews] (given fuel for the
    turns of its loop, one per page after the first) returns the records of
    those pages concatenated in the order they were fetched, and has called
    the fetcher on exactly the URLs of those pages, once each and in that
    order: no call follows the page whose continuation is [None]. *)
Theorem extract_reviews_collects :
  forall (pyfloat : Type) (float_of_string : string -> option pyfloat)
    (float_of_int : Z -> pyfloat) (BeautifulSoup : string -> Bs4.node)
    (Web : Type) (html_fetcher : pyval -> Web -> (Z * string) * Web)
    (url : pyval) (pages : list (pyval * list (Scraper.review pyfloat)))
    (fuel : nat) (st : Scraper.scrape_state Web) (w' : Web),
    Chain.reaches float_of_string float_of_int BeautifulSoup html_fetcher
      (Scraper.web st) url pages w' ->
    (List.length pages <= S fuel)%nat ->
    Scraper.extract_reviews float_of_string float_of_int BeautifulSoup
      html_fetcher fuel url st
    = (Some (Ok (List.concat (map snd pages))),
       Scraper.ScrapeState w'
         (Scraper.fetched st ++ map fst pages)
         (Scraper.stdout st
          ++ [substring 0 100
                (snd (fst (html_fetcher url (Scraper.web st))))])).
Proof.
  intros pyfloat fos foi BS Web fetch url pages fuel st w' Hreach Hfuel.
  apply extract_reviews_reaches; assumption.
Qed.

(** C2, at a test double scripted with three pages of 20, 20 and 5 reviews:
    45 records for three calls of the fetcher. *)
Lemma extract_reviews_collects_witness :
  exists pages,
    Chain.reaches Fixture.float_of_string Fixture.float_of_int
      Fixture.BeautifulSoup Fixture.scripted
      Fixture.three_pages Fixture.start pages []
    /\ map (fun p => List.length (snd p)) pages = [20; 20; 5]%nat
    /\ (List.length pages <= 3)%nat
    /\ (exists recs,
           fst (Scraper.extract_reviews Fixture.float_of_string
                  Fixture.float_of_int Fixture.BeautifulSoup Fixture.scripted
                  2 Fixture.start (Scraper.ScrapeState Fixture.three_pages [] []))
           = Some (Ok recs)
           /\ List.length recs = 45%nat)
    /\ Scraper.fetched
         (snd (Scraper.extract_reviews Fixture.float_of_string
                 Fixture.float_of_int Fixture.BeautifulSoup Fixture.scripted
                 2 Fixture.start (Scraper.ScrapeState Fixture.three_pages [] [])))
       = [Fixture.start; PStr "https://yelp.test/biz?start=20";
          PStr "https://yelp.test/biz?start=40"].
Proof.
  set (betsy := Scraper.Review (PStr "Betsy F.") 5 (PStr "2016-10-01")
                  "Authentic, incredible").
  set (ana := Scraper.Review (PStr "Ana G.") 4 (PStr "2016-09-12")
                "Worth the wait").
  set (pages := [(Fixture.start, repeat betsy 20);
                 (PStr "https://yelp.test/biz?start=20", repeat ana 20);
                 (PStr "https://yelp.test/biz?start=40", repeat betsy 5)]).
  assert (Hreach : Chain.reaches Fixture.float_of_string Fixture.float_of_int
                     Fixture.BeautifulSoup Fixture.scripted
                     Fixture.three_pages Fixture.start pages []).
  { apply Chain.reaches_next
      with (w1 := ["<page 2>"; "<page 3>"])
           (next := PStr "https://yelp.test/biz?start=20");
      [reflexivity|discriminate|].
    apply Chain.reaches_next
      with (w1 := ["<page 3>"]) (next := PStr "https://yelp.test/biz?start=40");
      [reflexivity|discriminate|].
    apply Chain.reaches_last. reflexivity. }
  assert (Hfuel : (List.length pages <= 3)%nat) by (cbn; lia).
  exists pages.
  split; [exact Hreach|]. split; [reflexivity|]. split; [exact Hfuel|].
  rewrite (@extract_reviews_collects Z Fixture.float_of_string
             Fixture.float_of_int Fixture.BeautifulSoup (list string)
             Fixture.scripted Fixture.start pages 2%nat
             (Scraper.ScrapeState Fixture.three_pages [] []) [] Hreach Hfuel).
  split.
  - eexists. split; reflexivity.
  - reflexivity.
Defined.

(** C5.  [extract_reviews] returns, for some amount of fuel, exactly when
    following the continuation pointers from the start URL ends at [None]
    after finitely many pages; when no page fails to parse, that is exactly
    when it halts at all.  When the pages reached form a cycle it never
    halts: whatever the fuel, the loop is still going when the fuel runs
    out, for nothing in it remembers the URLs visited or counts the pages. *)
Theorem extract_reviews_termination :
  forall (pyfloat : Type) (float_of_string : string -> option pyfloat)
    (float_of_int : Z -> pyfloat) (BeautifulSoup : string -> Bs4.node)
    (Web : Type) (html_fetcher : pyval -> Web -> (Z * string) * Web)
    (url : pyval) (st : Scraper.scrape_state Web),
    let run fuel :=
      Scraper.extract_reviews float_of_string float_of_int BeautifulSoup
        html_fetcher fuel url st in
    let reaches_none :=
      exists pages w',
        Chain.reaches float_of_string float_of_int BeautifulSoup html_fetcher
          (Scraper.web st) url pages w' in
    ((exists fuel recs, fst (run fuel) = Some (Ok recs)) <-> reaches_none)
    /\ ((forall u w,
           is_ok (fst (Chain.page_of float_of_string float_of_int BeautifulSoup
                         html_fetcher u w)) = true) ->
        ((exists fuel, fst (run fuel) <> None) <-> reaches_none))
    /\ (Chain.cyclic float_of_string float_of_int BeautifulSoup html_fetcher
          (Scraper.web st, url) ->
        forall fuel, fst (run fuel) = None).
Proof.
  intros pyfloat fos foi BS Web fetch url st run reaches_none.
  assert (Hto : reaches_none -> exists fuel recs, fst (run fuel) = Some (Ok recs)).
  { intros (pages & w' & Hpages). exists (List.length pages). eexists.
    subst run. cbv beta.
    erewrite extract_reviews_reaches; [reflexivity|eassumption|lia]. }
  assert (Hfrom : forall fuel recs, fst (run fuel) = Some (Ok recs) -> reaches_none).
  { intros fuel recs Hrun. subst run. cbv beta in Hrun.
    rewrite extract_reviews_unfold in Hrun.
    destruct (Chain.page_of fos foi BS fetch url (Scraper.web st))
      as [[[reviews next_url]|e] w] eqn:Hpage; [|discriminate].
    destruct (Py.is_not_none next_url) eqn:Hnone.
    - assert (Hnext : next_url <> PNone) by (intros ->; discriminate).
      match type of Hrun with
      | fst ?r = _ => destruct r as [out st'] eqn:Hloop
      end.
      cbn [fst] in Hrun. subst out.
      eapply follow_returns in Hloop; [|exact Hnext].
      destruct Hloop as [pages Hpages]. cbn [Scraper.web Scraper.printed Scraper.called] in Hpages.
      do 2 eexists. eapply Chain.reaches_next; eassumption.
    - apply is_not_none_false in Hnone. subst next_url.
      do 2 eexists. apply Chain.reaches_last. eassumption. }
  split; [split; [intros (fuel & recs & H); eauto|exact Hto]|].
  split.
  - intros Hparse. split.
    + intros [fuel Hhalt].
      destruct (fst (run fuel)) as [[recs|e]|] eqn:Hrun; [eauto| |contradiction].
      exfalso. subst run. cbv beta in Hrun.
      rewrite extract_reviews_unfold in Hrun.
      destruct (Chain.page_of fos foi BS fetch url (Scraper.web st))
        as [[[reviews next_url]|e'] w] eqn:Hpage.
      * match type of Hrun with
        | fst ?r = _ => destruct r as [out st'] eqn:Hloop
        end.
        cbn [fst] in Hrun. subst out.
        eapply follow_raises in Hloop. destruct Hloop as (u & w0 & Hu).
        specialize (Hparse u w0). rewrite Hu in Hparse. discriminate.
      * specialize (Hparse url (Scraper.web st)). rewrite Hpage in Hparse.
        discriminate.
    + intros Hreach. destruct (Hto Hreach) as (fuel & recs & Hrun).
      exists fuel. rewrite Hrun. discriminate.
  - intros (c & c' & Hleads & Hstep & Hback) fuel. subst run. cbv beta.
    rewrite extract_reviews_unfold.
    assert (exists c1, Chain.follows fos foi BS fetch (Scraper.web st, url) c1
                       /\ Chain.leads_to fos foi BS fetch c1 c)
      as ([w1 next] & (recs & Hpage & Hnn) & Hon).
    { inversion Hleads; subst; eauto. }
    cbn [fst snd] in Hpage, Hnn. rewrite Hpage.
    eapply follow_cycle; eauto.
Qed.

(** C5, at the fixture page that links to itself. *)
Lemma extract_reviews_termination_witness :
  Chain.cyclic Fixture.float_of_string Fixture.float_of_int
    Fixture.BeautifulSoup Fixture.html_fetcher
    (tt, PStr "https://yelp.test/loop")
  /\ forall fuel,
       fst (Scraper.extract_reviews Fixture.float_of_string Fixture.float_of_int
              Fixture.BeautifulSoup Fixture.html_fetcher fuel
              (PStr "https://yelp.test/loop") (Scraper.ScrapeState tt [] []))
       = None.
Proof.
  set (c := (tt, PStr "https://yelp.test/loop")).
  assert (Hstep : Chain.follows Fixture.float_of_string Fixture.float_of_int
                    Fixture.BeautifulSoup Fixture.html_fetcher c c).
  { eexists. split; [reflexivity|discriminate]. }
  assert (Hcycle : Chain.cyclic Fixture.float_of_string Fixture.float_of_int
                     Fixture.BeautifulSoup Fixture.html_fetcher c).
  { exists c, c. repeat split; [constructor|exact Hstep|constructor]. }
  split; [exact Hcycle|].
  destruct (@extract_reviews_termination Z Fixture.float_of_string
              Fixture.float_of_int Fixture.BeautifulSoup unit
              Fixture.html_fetcher (PStr "https://yelp.test/loop")
              (Scraper.ScrapeState tt [] [])) as (_ & _ & Hloop).
  exact (Hloop Hcycle).
Defined.

(** C9.  The status code the fetcher returns plays no part: two fetchers
    that return the same body for every URL (and have the same effect on
    their state) make [extract_reviews] behave alike, whatever fuel it is
    given, in what it returns or raises, in the calls it makes and in what
    it prints. *)
Theorem extract_reviews_ignores_status :
  forall (pyfloat : Type) (float_of_string : string -> option pyfloat)
    (float_of_int : Z -> pyfloat) (BeautifulSoup : string -> Bs4.node)
    (Web : Type) (fetch fetch' : pyval -> Web -> (Z * string) * Web),
    (forall url w,
        snd (fst (fetch url w)) = snd (fst (fetch' url w))
        /\ snd (fetch url w) = snd (fetch' url w)) ->
    forall (fuel : nat) (url : pyval) (st : Scraper.scrape_state Web),
      Scraper.extract_reviews float_of_string float_of_int BeautifulSoup fetch
        fuel url st
      = Scraper.extract_reviews float_of_string float_of_int BeautifulSoup fetch'
          fuel url st.
Proof.
  intros pyfloat fos foi BS Web fetch fetch' Hsame fuel url st.
  unfold Scraper.extract_reviews, Scraper.fetch.
  destruct (Hsame url (Scraper.web st)) as [Hbody Hweb].
  destruct (fetch url (Scraper.web st)) as [[code html] w],
    (fetch' url (Scraper.web st)) as [[code' html'] w'].
  cbn [fst snd] in Hbody, Hweb. subst html' w'.
  destruct (Scraper.parse_page fos foi BS html) as [[reviews next_url]|e];
    [|reflexivity].
  apply follow_same_bodies. exact Hsame.
Qed.

(** C9, at the fixture site served with status 200 and with status 503. *)
Lemma extract_reviews_ignores_status_witness :
  (forall url w,
      snd (fst (Fixture.html_fetcher url w)) = snd (fst (Fixture.flaky_fetcher url w))
      /\ snd (Fixture.html_fetcher url w) = snd (Fixture.flaky_fetcher url w))
  /\ fst (fst (Fixture.html_fetcher Fixture.start tt))
     <> fst (fst (Fixture.flaky_fetcher Fixture.start tt))
  /\ Scraper.extract_reviews Fixture.float_of_string Fixture.float_of_int
       Fixture.BeautifulSoup Fixture.html_fetcher 5 Fixture.start
       (Scraper.ScrapeState tt [] [])
     = Scraper.extract_reviews Fixture.float_of_string Fixture.float_of_int
         Fixture.BeautifulSoup Fixture.flaky_fetcher 5 Fixture.start
         (Scraper.ScrapeState tt [] []).
Proof.
  assert (Hsame : forall url w,
             snd (fst (Fixture.html_fetcher url w))
             = snd (fst (Fixture.flaky_fetcher url w))
             /\ snd (Fixture.html_fetcher url w) = snd (Fixture.flaky_fetcher url w))
    by (intros url w; split; reflexivity).
  split; [exact Hsame|]. split; [discriminate|].
  exact (@extract_reviews_ignores_status Z Fixture.float_of_string
           Fixture.float_of_int Fixture.BeautifulSoup unit Fixture.html_fetcher
           Fixture.flaky_fetcher Hsame 5%nat Fixture.start
           (Scraper.ScrapeState tt [] [])).
Defined.

(** ** Request parameters *)

Lemma dict_set_fresh {V : Type} (d : list (string * V)) (k : string) (v : V) :
  ~ In k (keys d) -> Py.dict_set d k v = d ++ [(k, v)].
Proof.
  induction d as [|[k' v'] d IH]; intros Hfresh; [reflexivity|].
  cbn [Py.dict_set]. destruct (String.eqb k' k) eqn:E.
  - apply String.eqb_eq in E. subst k'. exfalso. apply Hfresh. left. reflexivity.
  - cbn [app]. f_equal. apply IH. intros Hin. apply Hfresh. right. exact Hin.
Qed.

(** Keyword arguments with distinct names, none of them taken yet, are
    appended as they come. *)
Lemma dict_update_fresh {V : Type} (kwargs : list (string * V)) :
  forall (d : list (string * V)),
    NoDup (keys kwargs) ->
    (forall k, In k (keys kwargs) -> ~ In k (keys d)) ->
    Py.dict_update d kwargs = d ++ kwargs.
Proof.
  unfold Py.dict_update.
  induction kwargs as [|[k v] kwargs IH]; intros d Hnodup Hfresh.
  - cbn. rewrite app_nil_r. reflexivity.
  - cbn [fold_left fst snd]. inversion Hnodup as [|k0 l Hk Hrest]; subst.
    rewrite dict_set_fresh by (apply Hfresh; left; reflexivity).
    rewrite IH; [rewrite <- app_assoc; reflexivity|assumption|].
    intros k' Hk' Hin. unfold keys in Hin. rewrite map_app in Hin.
    apply in_app_or in Hin. destruct Hin as [Hin|[<-|[]]].
    + apply (Hfresh k'); [right; exact Hk'|exact Hin].
    + apply Hk. exact Hk'.
Qed.









(** ** More on the paginator of [src/yelp_search.ipynb] *)

(** X3.  [paginated_restaurant_search_requests] only builds requests: for
    any integer [total] it returns the paged requests for the offsets 0, 20,
    40, ... below [total], sends nothing and leaves the service as it was,
    and pauses once per request built.  For [total <= 0] it returns the empty
    list without a pause. *)
Theorem paginated_requests_only_builds :
  forall (World : Type) (api_key location : string) (total : Z)
    (st : api_state World),
    Scraper.paginated_restaurant_search_requests api_key location total st
    = (Ok (map (ScraperSpec.page_request api_key location) (offsets total)),
       ApiState (world st) (sent st) (sleeps st + page_count total))
    /\ (total <= 0 -> offsets total = [] /\ page_count total = 0%nat).
Proof.
  intros World api_key location total st. split.
  - unfold Scraper.paginated_restaurant_search_requests.
    rewrite pages_loop_spec. unfold offsets. rewrite Z.sub_0_r. reflexivity.
  - intros Hle. split; [apply offsets_from_done; exact Hle|].
    apply page_count_nonpos. exact Hle.
Qed.

(** X3, at a negative total. *)
Lemma paginated_requests_only_builds_witness :
  -7 <= 0
  /\ Scraper.paginated_restaurant_search_requests Fixture.api_key
       Fixture.location (-7) (Fixture.fresh tt)
     = (Ok [], Fixture.fresh tt).
Proof.
  split; [lia|].
  destruct (@paginated_requests_only_builds unit Fixture.api_key
              Fixture.location (-7) (Fixture.fresh tt)) as [Hrun Hnone].
  destruct (Hnone ltac:(lia)) as [Hoffsets Hcount].
  rewrite Hrun, Hoffsets, Hcount. reflexivity.
Defined.

Section ScraperProbe.

Variable World : Type.
Variable requests_get_json : request -> World -> result pyval * World.


End ScraperProbe.


(** ** More on the review parser and the paginator of reviews *)

Section ParserEdges.

Variable pyfloat : Type.
Variable float_of_string : string -> option pyfloat.
Variable float_of_int : Z -> pyfloat.
Variable BeautifulSoup : string -> Bs4.node.

(** The loop of [parse_page] goes through well-formed units and on to the
    rest. *)
Lemma parse_reviews_through (good : list Bs4.node) :
  forall (rest : list Bs4.node) (recs acc : list (Scraper.review pyfloat)),
    Forall2 (Doc.record_of float_of_string) good recs ->
    Scraper.parse_reviews float_of_string float_of_int (good ++ rest) acc
    = Scraper.parse_reviews float_of_string float_of_int rest (acc ++ recs).
Proof.
  induction good as [|r good IH]; intros rest recs acc Hall.
  - inversion Hall; subst. cbn. rewrite app_nil_r. reflexivity.
  - inversion Hall as [|r' rec good' recs' Hrec Hrest]; subst.
    cbn [app Scraper.parse_reviews].
    rewrite (parse_review_well_formed float_of_int Hrec). cbn [rbind].
    rewrite (IH _ _ _ Hrest), <- app_assoc. reflexivity.
Qed.

End ParserEdges.

(** X5.  A rating that does not read as a number is a [ValueError]: when
    the review units before it are well formed and a unit carries its author
    and a rating value that [float] does not accept, [parse_page] raises
    [ValueError], whatever follows that unit. *)
Theorem parse_page_rating_not_a_number :
  forall (pyfloat : Type) (float_of_string : string -> option pyfloat)
    (float_of_int : Z -> pyfloat) (BeautifulSoup : string -> Bs4.node)
    (html : string) (good rest : list Bs4.node) (r : Bs4.node)
    (a : Bs4.attr_value) (v : string),
    Doc.review_units (BeautifulSoup html) = good ++ r :: rest ->
    Forall (Doc.well_formed float_of_string) good ->
    Doc.field "author" r = Some a ->
    Doc.field "ratingValue" r = Some (Bs4.AttrStr v) ->
    float_of_string v = None ->
    Scraper.parse_page float_of_string float_of_int BeautifulSoup html
    = Raise ValueError.
Proof.
  intros pyfloat fos foi BS html good rest r a v Hunits Hgood Ha Hv Hfloat.
  rewrite parse_page_unfold, Hunits.
  destruct (well_formed_records Hgood) as [recs Hrecs].
  rewrite (parse_reviews_through foi (r :: rest) [] Hrecs).
  cbn [Scraper.parse_reviews]. unfold Scraper.parse_review.
  rewrite (attrs_of_present _ _ Ha), (attrs_of_present _ _ Hv).
  cbn [rbind Bs4.to_py Scraper.float]. rewrite Hfloat. reflexivity.
Qed.

(** X5, at a page whose second review rates "five". *)
Lemma parse_page_rating_not_a_number_witness :
  Doc.review_units (Sample.BeautifulSoup "<wordy>")
  = [Fixture.betsy] ++ Sample.wordy :: []
  /\ Forall (Doc.well_formed Fixture.float_of_string) [Fixture.betsy]
  /\ Doc.field "author" Sample.wordy = Some (Bs4.AttrStr "Dee K.")
  /\ Doc.field "ratingValue" Sample.wordy = Some (Bs4.AttrStr "five")
  /\ Fixture.float_of_string "five" = None
  /\ Scraper.parse_page Fixture.float_of_string Fixture.float_of_int
       Sample.BeautifulSoup "<wordy>"
     = Raise ValueError.
Proof.
  assert (Hgood : Forall (Doc.well_formed Fixture.float_of_string) [Fixture.betsy]).
  { repeat constructor. eexists. exists "Betsy F.", "5.0", "2016-10-01", 5.
    eexists. repeat split; reflexivity. }
  split; [reflexivity|]. split; [exact Hgood|].
  split; [reflexivity|]. split; [reflexivity|]. split; [reflexivity|].
  exact (@parse_page_rating_not_a_number Z Fixture.float_of_string
           Fixture.float_of_int Sample.BeautifulSoup "<wordy>"
           [Fixture.betsy] [] Sample.wordy (Bs4.AttrStr "Dee K.") "five"
           eq_refl Hgood eq_refl eq_refl eq_refl).
Defined.

Section Aborts.

Variable pyfloat : Type.
Variable float_of_string : string -> option pyfloat.
Variable float_of_int : Z -> pyfloat.
Variable BeautifulSoup : string -> Bs4.node.
Variable Web : Type.
Variable html_fetcher : pyval -> Web -> (Z * string) * Web.

(** With fuel for every page up to the one that does not parse, the loop
    raises what [parse_page] raised there, having called the fetcher on the
    pages up to it. *)
Lemma follow_breaks (w w' : Web) (next_url : pyval) (urls : list pyval)
  (e : exn) :
  Broken.breaks float_of_string float_of_int BeautifulSoup html_fetcher
    w next_url urls e w' ->
  forall (fuel : nat) (reviews : list (Scraper.review pyfloat))
    (st : Scraper.scrape_state Web),
    Scraper.web st = w ->
    next_url <> PNone ->
    (List.length urls <= fuel)%nat ->
    Scraper.follow float_of_string float_of_int BeautifulSoup html_fetcher
      fuel reviews next_url st
    = (Some (Raise e),
       Scraper.ScrapeState w' (Scraper.fetched st ++ urls) (Scraper.stdout st)).
Proof.
  induction 1 as [w w' url e Hpage
                 |w w1 w' url next recs urls e Hpage Hnext Hrest IH];
    intros fuel reviews st Hweb Hurl Hfuel; subst w.
  - destruct fuel as [|fuel]; [cbn in Hfuel; lia|].
    rewrite (follow_turn _ _ _ _ _ _ _ Hurl), Hpage. reflexivity.
  - destruct fuel as [|fuel]; [cbn in Hfuel; lia|].
    rewrite (follow_turn _ _ _ _ _ _ _ Hurl), Hpage.
    rewrite IH by (reflexivity || assumption || (cbn in Hfuel; lia)).
    cbn. rewrite <- !app_assoc. reflexivity.
Qed.

End Aborts.

(** X6.  A page that does not parse aborts [extract_reviews]: when
    following the continuation pointers from the start URL meets a page on
    which [parse_page] raises, the call (given fuel for the pages before it)
    raises the same exception and returns none of the records collected so
    far.  The fetcher has been called on the pages up to and including that
    one, and the first page's opening characters have been printed unless
    the first page itself is the one that fails. *)
Theorem extract_reviews_aborts :
  forall (pyfloat : Type) (float_of_string : string -> option pyfloat)
    (float_of_int : Z -> pyfloat) (BeautifulSoup : string -> Bs4.node)
    (Web : Type) (html_fetcher : pyval -> Web -> (Z * string) * Web)
    (url : pyval) (urls : list pyval) (e : exn)
    (fuel : nat) (st : Scraper.scrape_state Web) (w' : Web),
    Broken.breaks float_of_string float_of_int BeautifulSoup html_fetcher
      (Scraper.web st) url urls e w' ->
    (List.length urls <= S fuel)%nat ->
    Scraper.extract_reviews float_of_string float_of_int BeautifulSoup
      html_fetcher fuel url st
    = (Some (Raise e),
       Scraper.ScrapeState w'
         (Scraper.fetched st ++ urls)
         (match urls with
          | _ :: _ :: _ =>
              Scraper.stdout st
              ++ [substring 0 100
                    (snd (fst (html_fetcher url (Scraper.web st))))]
          | _ => Scraper.stdout st
          end)).
Proof.
  intros pyfloat fos foi BS Web fetch url urls e fuel st w' Hbreak Hfuel.
  rewrite extract_reviews_unfold.
  inversion Hbreak
    as [w0 w0' url' e' Hpage
       |w0 w1 w0' url' next recs urls' e' Hpage Hnext Hrest];
    subst.
  - rewrite Hpage. reflexivity.
  - rewrite Hpage.
    erewrite follow_breaks;
      [|eassumption|reflexivity|assumption|cbn in Hfuel; lia].
    inversion Hrest; subst; cbn; rewrite <- ?app_assoc; reflexivity.
Qed.

(** X6, at a fetcher scripted with a good page and then the page whose
    second review has no date: the twenty records of the first page are
    lost. *)
Lemma extract_reviews_aborts_witness :
  Broken.breaks Fixture.float_of_string Fixture.float_of_int
    Fixture.BeautifulSoup Fixture.scripted
    Sample.broken_script Fixture.start
    [Fixture.start; PStr "https://yelp.test/biz?start=20"] AttributeError []
  /\ (2 <= 2)%nat
  /\ fst (Scraper.extract_reviews Fixture.float_of_string Fixture.float_of_int
            Fixture.BeautifulSoup Fixture.scripted 1 Fixture.start
            (Scraper.ScrapeState Sample.broken_script [] []))
     = Some (Raise AttributeError).
Proof.
  assert (Hbreak : Broken.breaks Fixture.float_of_string Fixture.float_of_int
                     Fixture.BeautifulSoup Fixture.scripted
                     Sample.broken_script Fixture.start
                     [Fixture.start; PStr "https://yelp.test/biz?start=20"]
                     AttributeError []).
  { eapply Broken.breaks_later with (w1 := ["<undated>"]);
      [reflexivity|discriminate|].
    apply Broken.breaks_here. reflexivity. }
  split; [exact Hbreak|]. split; [lia|].
  rewrite (@extract_reviews_aborts Z Fixture.float_of_string
             Fixture.float_of_int Fixture.BeautifulSoup (list string)
             Fixture.scripted Fixture.start _ AttributeError 1%nat
             (Scraper.ScrapeState Sample.broken_script [] []) []
             Hbreak ltac:(cbn; lia)).
  reflexivity.
Defined.

(** ** The URLs of a search answer *)

Lemma collect_urls_iff (items : list pyval) :
  forall (acc urls : list pyval),
    Urls.collect_urls items acc = Ok urls
    <-> exists found,
          urls = acc ++ found
          /\ Forall2 (fun b u => Py.getitem b "url" = Ok u) items found.
Proof.
  induction items as [|b items IH]; intros acc urls.
  - cbn. split.
    + intros H. injection H as <-. exists []. rewrite app_nil_r.
      split; [reflexivity|constructor].
    + intros (found & -> & Hall). inversion Hall; subst.
      rewrite app_nil_r. reflexivity.
  - cbn [Urls.collect_urls]. destruct (Py.getitem b "url") as [u|e] eqn:Hb.
    + cbn [rbind]. rewrite IH. split.
      * intros (found & -> & Hall). exists (u :: found).
        rewrite <- app_assoc. split; [reflexivity|]. constructor; assumption.
      * intros (found & -> & Hall).
        inversion Hall as [|b' u' items' found' Hu Hrest]; subst.
        rewrite Hb in Hu. injection Hu as <-.
        exists found'. rewrite <- app_assoc. split; [reflexivity|assumption].
    + cbn [rbind]. split; [discriminate|].
      intros (found & _ & Hall).
      inversion Hall as [|b' u' items' found' Hu Hrest]; subst. congruence.
Qed.

(** X7.  [parse_api_response], on a text that decodes to an object whose
    [businesses] is a list, returns a list of URLs exactly when every
    business of the list has a [url], and then it returns those URLs, one per
    business and in the order of the businesses.  One business without a
    [url] makes the call raise: no partial list is returned. *)
Theorem parse_api_response_urls :
  forall (json_loads : string -> result pyval) (data : string)
    (content : pyval) (businesses : list pyval),
    json_loads data = Ok content ->
    Py.getitem content "businesses" = Ok (PList businesses) ->
    (forall urls,
        Urls.parse_api_response json_loads data = Ok urls
        <-> Forall2 (fun b u => Py.getitem b "url" = Ok u) businesses urls)
    /\ (forall urls,
           Urls.parse_api_response json_loads data = Ok urls ->
           List.length urls = List.length businesses)
    /\ (forall b,
           In b businesses -> is_ok (Py.getitem b "url") = false ->
           is_ok (Urls.parse_api_response json_loads data) = false).
Proof.
  intros json_loads data content businesses Hloads Hbusinesses.
  assert (Hiff : forall urls,
             Urls.parse_api_response json_loads data = Ok urls
             <-> Forall2 (fun b u => Py.getitem b "url" = Ok u) businesses urls).
  { intros urls. unfold Urls.parse_api_response.
    rewrite Hloads. cbn [rbind]. rewrite Hbusinesses. cbn [rbind].
    rewrite collect_urls_iff. cbn [app]. split.
    - intros (found & -> & Hall). exact Hall.
    - intros Hall. exists urls. auto. }
  split; [exact Hiff|]. split.
  - intros urls Hrun. apply Hiff in Hrun. symmetry.
    eapply Forall2_length. eassumption.
  - intros b Hin Hb.
    destruct (Urls.parse_api_response json_loads data) as [urls|e] eqn:Hrun;
      [|reflexivity].
    exfalso. pose proof (proj1 (Hiff urls) eq_refl) as Hall.
    clear Hiff Hrun Hbusinesses.
    induction Hall as [|b' u bs us Hu Hrest IH]; [contradiction|].
    destruct Hin as [Heq|Hin].
    + subst b'. rewrite Hu in Hb. discriminate.
    + exact (IH Hin).
Qed.

(** X7, at an answer of two businesses. *)
Lemma parse_api_response_urls_witness :
  Sample.json_loads "<two urls>" = Ok Sample.two_urls
  /\ Urls.parse_api_response Sample.json_loads "<two urls>"
     = Ok [PStr "https://www.yelp.com/biz/au-cheval-chicago";
           PStr "https://www.yelp.com/biz/xoco-chicago"].
Proof.
  split; [reflexivity|].
  destruct (@parse_api_response_urls Sample.json_loads "<two urls>"
              Sample.two_urls _ eq_refl eq_refl) as (Hiff & _ & _).
  apply Hiff. repeat constructor.
Defined.

(** ** The API key file *)







(** ** Requests of [src/unnamed/part_000] *)

Lemma dict_get_absent {V : Type} (d : list (string * V)) (k : string) :
  ~ In k (keys d) -> Py.dict_get d k = None.
Proof.
  induction d as [|[k' v] d IH]; intros Hk; [reflexivity|].
  cbn [Py.dict_get]. destruct (String.eqb k' k) eqn:E.
  - apply String.eqb_eq in E. subst k'. exfalso. apply Hk. left. reflexivity.
  - apply IH. intros Hin. apply Hk. right. exact Hin.
Qed.

Lemma dict_get_present {V : Type} (d : list (string * V)) (k : string) :
  In k (keys d) -> exists v, Py.dict_get d k = Some v.
Proof.
  induction d as [|[k' v] d IH]; intros Hk; [contradiction|].
  cbn [Py.dict_get]. destruct (String.eqb k' k) eqn:E; [eauto|].
  apply IH. destruct Hk as [Hk|Hk]; [|exact Hk].
  cbn in Hk. subst k'. rewrite String.eqb_refl in E. discriminate.
Qed.

(** X9.  [get_url_params] of [src/unnamed/part_000], called with its two
    positional arguments (the first a string) and keyword arguments of
    distinct names, returns the endpoint under
    [https://api.yelp.com/v3/businesses], the key as a bearer token and the
    keyword arguments as they are, in the order given, provided none of them
    is named after a positional parameter; a keyword argument named
    [url_addition] or [api_key] makes the call raise [TypeError]. *)
Theorem get_url_params_keeps_kwargs :
  forall (py_str : pyval -> string) (url_addition : string) (api_key : pyval)
    (kwargs : dict),
    NoDup (keys kwargs) ->
    (~ In "url_addition" (keys kwargs) /\ ~ In "api_key" (keys kwargs) ->
     Fusion.get_url_params py_str [PStr url_addition; api_key] kwargs
     = Ok (("https://api.yelp.com/v3/businesses" ++ url_addition)%string,
           [("Authorization", PStr ("Bearer " ++ py_str api_key)%string)],
           kwargs))
    /\ (In "url_addition" (keys kwargs) \/ In "api_key" (keys kwargs) ->
        Fusion.get_url_params py_str [PStr url_addition; api_key] kwargs
        = Raise TypeError).
Proof.
  intros py_str url_addition api_key kwargs Hnodup. split.
  - intros [Hurl Hkey]. unfold Fusion.get_url_params. cbn [Py.bind_arguments].
    rewrite (dict_get_absent _ _ Hurl), (dict_get_absent _ _ Hkey).
    rewrite (dict_update_fresh kwargs [] Hnodup) by (intros k _ []).
    reflexivity.
  - intros Hnamed. unfold Fusion.get_url_params. cbn [Py.bind_arguments].
    destruct (Py.dict_get kwargs "url_addition") eqn:Hurl; [reflexivity|].
    destruct (Py.dict_get kwargs "api_key") eqn:Hkey; [reflexivity|].
    exfalso. destruct Hnamed as [H|H]; apply dict_get_present in H;
      destruct H as [v Hv]; congruence.
Qed.

(** X9, at the keyword arguments of [get_business_id]. *)
Lemma get_url_params_keeps_kwargs_witness :
  NoDup (keys [("name", Sample.name); ("address1", Sample.address);
               ("city", Sample.city); ("state", Sample.state_);
               ("country", Sample.country)])
  /\ Fusion.get_url_params Fixture.str_of [PStr "/matches"; Sample.api_key]
       [("name", Sample.name); ("address1", Sample.address);
        ("city", Sample.city); ("state", Sample.state_);
        ("country", Sample.country)]
     = Ok (MatchesSpec.match_request Fixture.str_of Sample.api_key Sample.name
             Sample.address Sample.city Sample.state_ Sample.country)
  /\ Fusion.get_url_params Fixture.str_of [PStr "/search"; Sample.api_key]
       [("api_key", Sample.api_key)]
     = Raise TypeError.
Proof.
  assert (Hnodup : NoDup (keys [("name", Sample.name); ("address1", Sample.address);
                                ("city", Sample.city); ("state", Sample.state_);
                                ("country", Sample.country)])).
  { repeat constructor; cbn; intros H;
      repeat (destruct H as [H|H]; [discriminate|]); exact H. }
  split; [exact Hnodup|]. split.
  - destruct (@get_url_params_keeps_kwargs Fixture.str_of "/matches"
                Sample.api_key _ Hnodup) as [Hok _].
    rewrite Hok; [reflexivity|].
    split; cbn; intros H; repeat (destruct H as [H|H]; [discriminate|]); exact H.
  - assert (Hone : NoDup (keys [("api_key", Sample.api_key)])).
    { repeat constructor. intros []. }
    destruct (@get_url_params_keeps_kwargs Fixture.str_of "/search"
                Sample.api_key _ Hone) as [_ Hraise].
    apply Hraise. right. left. reflexivity.
Defined.

(** X10.  [yelp_search] of [src/unnamed/part_000] sends the offset and the
    location it is given, unchanged, in its one request; when the answer is
    an object with a [total] and a list of [businesses] it returns the two,
    and when the answer has no [total] it raises [KeyError]. *)
Theorem fusion_yelp_search_sends_offset :
  forall (World : Type)
    (requests_get_json : request -> World -> result pyval * World)
    (py_str : pyval -> string) (api_key location offset : pyval)
    (st : api_state World),
    let req :=
      ("https://api.yelp.com/v3/businesses/search",
       [("Authorization", PStr ("Bearer " ++ py_str api_key)%string)],
       [("location", location); ("offset", offset)]) in
    let run :=
      Fusion.yelp_search requests_get_json py_str api_key location offset st in
    sent (snd run) = sent st ++ [req]
    /\ world (snd run) = snd (requests_get_json req (world st))
    /\ (forall content total businesses,
           fst (requests_get_json req (world st)) = Ok content ->
           Py.getitem content "total" = Ok total ->
           Py.getitem content "businesses" = Ok (PList businesses) ->
           fst run = Ok (total, businesses))
    /\ (forall d,
           fst (requests_get_json req (world st)) = Ok (PDict d) ->
           ~ In "total" (keys d) ->
           fst run = Raise KeyError).
Proof.
  intros World get py_str api_key location offset st req run.
  assert (Hrun : run
                 = match get req (world st) with
                   | (Ok content, w') =>
                       (match Py.getitem content "total" with
                        | Ok total =>
                            match Py.getitem content "businesses" with
                            | Ok businesses =>
                                match Py.list_of businesses with
                                | Ok l => Ok (total, l)
                                | Raise e => Raise e
                                end
                            | Raise e => Raise e
                            end
                        | Raise e => Raise e
                        end,
                        ApiState w' (sent st ++ [req]) (sleeps st))
                   | (Raise e, w') =>
                       (Raise e, ApiState w' (sent st ++ [req]) (sleeps st))
                   end).
  { subst run. unfold Fusion.yelp_search.
    change (Fusion.get_url_params py_str [PStr "/search"; api_key]
              [("location", location); ("offset", offset)])
      with (Ok req).
    unfold bind at 1. unfold lift at 1. cbv iota beta.
    unfold req at 1. cbv iota beta.
    unfold bind at 1. unfold api_get_request at 1. unfold http_get.
    match goal with
    | |- context [get ?r (world st)] =>
        change (get r (world st)) with (get req (world st));
        change (sent st ++ [r]) with (sent st ++ [req])
    end.
    destruct (get req (world st)) as [[content|e] w']; [|reflexivity].
    unfold bind, lift, ret.
    destruct (Py.getitem content "total"); [|reflexivity].
    destruct (Py.getitem content "businesses") as [b|]; [|reflexivity].
    destruct (Py.list_of b); reflexivity. }
  rewrite Hrun. clear Hrun run.
  destruct (get req (world st)) as [[content|e] w'] eqn:Hget; cbn [fst snd sent world].
  - split; [reflexivity|]. split; [reflexivity|]. split.
    + intros content' total businesses Hc Htotal Hb. injection Hc as <-.
      rewrite Htotal, Hb. reflexivity.
    + intros d Hc Hd. injection Hc as ->. cbn [Py.getitem].
      rewrite (dict_get_absent _ _ Hd). reflexivity.
  - split; [reflexivity|]. split; [reflexivity|].
    split; intros; discriminate.
Qed.

(** X10, at the steady service and offset 20. *)
Lemma fusion_yelp_search_sends_offset_witness :
  fst (Fixture.steady
         ("https://api.yelp.com/v3/businesses/search",
          [("Authorization", PStr ("Bearer " ++ Fixture.str_of Sample.api_key)%string)],
          [("location", PStr Fixture.location); ("offset", PInt 20)]) tt)
  = Ok Fixture.steady_answer
  /\ Py.getitem Fixture.steady_answer "total" = Ok (PInt 45)
  /\ Py.getitem Fixture.steady_answer "businesses"
     = Ok (PList Fixture.two_businesses)
  /\ fst (Fusion.yelp_search Fixture.steady Fixture.str_of Sample.api_key
            (PStr Fixture.location) (PInt 20) (Fixture.fresh tt))
     = Ok (PInt 45, Fixture.two_businesses).
Proof.
  split; [reflexivity|]. split; [reflexivity|]. split; [reflexivity|].
  destruct (@fusion_yelp_search_sends_offset unit Fixture.steady Fixture.str_of
              Sample.api_key (PStr Fixture.location) (PInt 20)
              (Fixture.fresh tt)) as (_ & _ & Hok & _).
  exact (Hok Fixture.steady_answer (PInt 45) Fixture.two_businesses
           eq_refl eq_refl eq_refl).
Defined.

(** ** Business match and reviews *)

Section MatchRuns.

Variable World : Type.
Variable requests_get_json : request -> World -> result pyval * World.
Variable py_str : pyval -> string.

Local Abbreviation state := (Matches.state World).
Local Abbreviation get_business_id :=
  (Matches.get_business_id requests_get_json py_str).
Local Abbreviation extract_reviews :=
  (Matches.extract_reviews requests_get_json py_str).

Lemma get_business_id_unfold (api_key name address city state_ country : pyval)
  (st : state) :
  let req :=
    MatchesSpec.match_request py_str api_key name address city state_ country in
  get_business_id api_key name address city state_ country st
  = match requests_get_json req (world (Matches.api st)) with
    | (Ok content, w) => MatchesSpec.after_match py_str content (MatchesSpec.requested req w st)
    | (Raise e, w) => (Matches.Raises (Matches.Builtin e), MatchesSpec.requested req w st)
    end.
Proof.
  intros req. unfold Matches.get_business_id.
  change (Fusion.get_url_params py_str [PStr "/matches"; api_key]
            [("name", name); ("address1", address); ("city", city);
             ("state", state_); ("country", country)])
    with (Ok req).
  unfold Matches.bind at 1. unfold Matches.pure at 1. cbn [Matches.of_result].
  unfold req at 1, MatchesSpec.match_request. cbv iota beta.
  unfold Matches.bind at 1. unfold Matches.call at 1.
  unfold api_get_request at 1. unfold http_get.
  match goal with
  | |- context [requests_get_json ?r (world (Matches.api st))] =>
      change (requests_get_json r (world (Matches.api st)))
        with (requests_get_json req (world (Matches.api st)));
      change (sent (Matches.api st) ++ [r]) with (sent (Matches.api st) ++ [req])
  end.
  destruct (requests_get_json req (world (Matches.api st))) as [[content|e] w];
    [|reflexivity].
  cbn [Matches.of_result]. fold (MatchesSpec.requested req w st).
  unfold MatchesSpec.after_match.
  unfold Matches.bind at 1. unfold Matches.pure at 1.
  destruct (Matches.has_error content) as [[|]|e]; [| |reflexivity].
  - unfold Matches.bind at 1. unfold Matches.pure at 1.
    destruct (Py.getitem content "error") as [err|e]; [|reflexivity].
    cbn [Matches.of_result].
    unfold Matches.bind at 1. unfold Matches.pure at 1.
    destruct (Py.getitem err "code") as [code|e]; [|reflexivity].
    cbn [Matches.of_result].
    unfold Matches.bind at 1. unfold Matches.print2 at 1.
    unfold Matches.bind at 1. unfold Matches.pure at 1. cbn [Matches.of_result].
    unfold Matches.bind at 1. unfold Matches.pure at 1.
    destruct (Py.getitem err "description") as [description|e]; reflexivity.
  - unfold Matches.bind at 1. unfold Matches.pure at 1.
    destruct (Py.getitem content "businesses") as [business|e]; [|reflexivity].
    cbn [Matches.of_result].
    unfold Matches.bind at 1. unfold Matches.pure at 1.
    destruct (Matches.first_item business) as [first|e]; reflexivity.
Qed.

(** An answer with an [error] field reports an error. *)
Lemma has_error_reported (content err : pyval) :
  Py.getitem content "error" = Ok err ->
  Matches.has_error content = Matches.Returns true.
Proof.
  destruct content; try discriminate. cbn.
  destruct (Py.dict_get d "error"); [reflexivity|discriminate].
Qed.

(** [get_business_id] sends its one request and no other, and pauses
    nowhere. *)
Lemma get_business_id_one_request
  (api_key name address city state_ country : pyval) (st : state) :
  let req :=
    MatchesSpec.match_request py_str api_key name address city state_ country in
  let st' := snd (get_business_id api_key name address city state_ country st) in
  sent (Matches.api st') = sent (Matches.api st) ++ [req]
  /\ sleeps (Matches.api st') = sleeps (Matches.api st)
  /\ world (Matches.api st')
     = snd (requests_get_json req (world (Matches.api st))).
Proof.
  intros req st'. subst st'. rewrite get_business_id_unfold. fold req.
  destruct (requests_get_json req (world (Matches.api st))) as [[content|e] w];
    [|cbn; auto].
  unfold MatchesSpec.after_match.
  destruct (Matches.has_error content) as [[|]|e]; [| |cbn; auto].
  - destruct (Py.getitem content "error") as [err|e]; [|cbn; auto].
    destruct (Py.getitem err "code") as [code|e]; [|cbn; auto].
    destruct (Py.getitem err "description") as [description|e]; cbn; auto.
  - destruct (Py.getitem content "businesses") as [business|e]; [|cbn; auto].
    destruct (Matches.first_item business) as [first|e]; cbn; auto.
Qed.

(** What [extract_reviews] does after [get_business_id]. *)
Lemma extract_reviews_unfold_match
  (api_key name address city state_ country : pyval) (st : state) :
  extract_reviews api_key name address city state_ country st
  = match get_business_id api_key name address city state_ country st with
    | (Matches.Raises e, st1) => (Matches.Raises e, st1)
    | (Matches.Returns PNone, st1) =>
        (Matches.Returns None,
         Matches.State (Matches.api st1)
           (Matches.stdout st1 ++ ["business not found"]))
    | (Matches.Returns (PStr id), st1) =>
        let req := MatchesSpec.reviews_request py_str api_key id in
        match requests_get_json req (world (Matches.api st1)) with
        | (Raise e, w) => (Matches.Raises (Matches.Builtin e), MatchesSpec.requested req w st1)
        | (Ok content, w) =>
            (match Py.getitem content "reviews" with
             | Raise e => Matches.Raises (Matches.Builtin e)
             | Ok reviews =>
                 match Py.getitem content "total" with
                 | Raise e => Matches.Raises (Matches.Builtin e)
                 | Ok total => Matches.Returns (Some (reviews, total))
                 end
             end,
             MatchesSpec.requested req w st1)
        end
    | (Matches.Returns _, st1) => (Matches.Raises (Matches.Builtin TypeError), st1)
    end.
Proof.
  unfold Matches.extract_reviews. unfold Matches.bind at 1.
  destruct (get_business_id api_key name address city state_ country st)
    as [[business_id|e] st1]; [|reflexivity].
  destruct business_id as [| | |id| |]; try reflexivity.
  cbn [Py.is_not_none Matches.reviews_path].
  unfold Matches.bind at 1. unfold Matches.pure at 1.
  change (Fusion.get_url_params py_str
            [PStr ("/" ++ id ++ "/reviews")%string; api_key] [])
    with (Ok (MatchesSpec.reviews_request py_str api_key id)).
  unfold Matches.bind at 1. unfold Matches.pure at 1. cbn [Matches.of_result].
  unfold MatchesSpec.reviews_request at 1. cbv iota beta.
  unfold Matches.bind at 1. unfold Matches.call at 1.
  unfold api_get_request at 1. unfold http_get.
  match goal with
  | |- context [requests_get_json ?r (world (Matches.api st1))] =>
      change (requests_get_json r (world (Matches.api st1)))
        with (requests_get_json (MatchesSpec.reviews_request py_str api_key id)
                (world (Matches.api st1)));
      change (sent (Matches.api st1) ++ [r])
        with (sent (Matches.api st1)
              ++ [MatchesSpec.reviews_request py_str api_key id])
  end.
  cbv zeta.
  destruct (requests_get_json (MatchesSpec.reviews_request py_str api_key id)
              (world (Matches.api st1))) as [[content|e] w]; [|reflexivity].
  cbn [Matches.of_result].
  fold (MatchesSpec.requested (MatchesSpec.reviews_request py_str api_key id) w st1).
  unfold Matches.bind at 1. unfold Matches.pure at 1.
  destruct (Py.getitem content "reviews") as [reviews|e]; [|reflexivity].
  cbn [Matches.of_result].
  unfold Matches.bind at 1. unfold Matches.pure at 1.
  destruct (Py.getitem content "total") as [total|e]; reflexivity.
Qed.

End MatchRuns.

(** X11.  [get_business_id] turns a reported error into [None]: when the
    match request is answered with an object whose [error] has a [code] and a
    [description], the call prints the two, each on a line of its own after
    its label, and returns [None] instead of raising; the match request is
    the only request sent. *)
Theorem get_business_id_reports_error :
  forall (World : Type)
    (requests_get_json : request -> World -> result pyval * World)
    (py_str : pyval -> string)
    (api_key name address city state_ country : pyval)
    (st : Matches.state World) (content err code description : pyval)
    (w : World),
    let req :=
      MatchesSpec.match_request py_str api_key name address city state_ country in
    requests_get_json req (world (Matches.api st)) = (Ok content, w) ->
    Py.getitem content "error" = Ok err ->
    Py.getitem err "code" = Ok code ->
    Py.getitem err "description" = Ok description ->
    Matches.get_business_id requests_get_json py_str
      api_key name address city state_ country st
    = (Matches.Returns PNone,
       Matches.State
         (ApiState w (sent (Matches.api st) ++ [req]) (sleeps (Matches.api st)))
         (Matches.stdout st
          ++ [("error code: " ++ py_str code)%string;
              ("description: " ++ py_str description)%string])).
Proof.
  intros World get py_str api_key name address city state_ country st
    content err code description w req Hget Herr Hcode Hdescription.
  rewrite get_business_id_unfold. fold req. rewrite Hget.
  unfold MatchesSpec.after_match.
  rewrite (has_error_reported _ Herr), Herr, Hcode, Hdescription.
  cbn. rewrite <- app_assoc. reflexivity.
Qed.

(** X11, at a service that answers "business not found". *)
Lemma get_business_id_reports_error_witness :
  Sample.scripted_api
    (MatchesSpec.match_request Fixture.str_of Sample.api_key Sample.name
       Sample.address Sample.city Sample.state_ Sample.country)
    [Sample.not_found_answer]
  = (Ok Sample.not_found_answer, [])
  /\ Py.getitem Sample.not_found_answer "error" = Ok Sample.not_found_error
  /\ Py.getitem Sample.not_found_error "code" = Ok (PStr "BUSINESS_NOT_FOUND")
  /\ Py.getitem Sample.not_found_error "description"
     = Ok (PStr "The requested business could not be found.")
  /\ fst (Matches.get_business_id Sample.scripted_api Fixture.str_of
            Sample.api_key Sample.name Sample.address Sample.city
            Sample.state_ Sample.country (Sample.fresh [Sample.not_found_answer]))
     = Matches.Returns PNone.
Proof.
  split; [reflexivity|]. split; [reflexivity|]. split; [reflexivity|].
  split; [reflexivity|].
  rewrite (@get_business_id_reports_error (list pyval) Sample.scripted_api
             Fixture.str_of Sample.api_key Sample.name Sample.address
             Sample.city Sample.state_ Sample.country
             (Sample.fresh [Sample.not_found_answer])
             Sample.not_found_answer Sample.not_found_error _ _ []
             eq_refl eq_refl eq_refl eq_refl).
  reflexivity.
Defined.

(** The run of [get_business_id] on an answer that reports no error and
    lists its businesses. *)
Lemma get_business_id_listed (World : Type)
  (requests_get_json : request -> World -> result pyval * World)
  (py_str : pyval -> string)
  (api_key name address city state_ country : pyval)
  (st : Matches.state World) (d : dict) (businesses : list pyval) (w : World) :
  let req :=
    MatchesSpec.match_request py_str api_key name address city state_ country in
  requests_get_json req (world (Matches.api st)) = (Ok (PDict d), w) ->
  ~ In "error" (keys d) ->
  Py.dict_get d "businesses" = Some (PList businesses) ->
  Matches.get_business_id requests_get_json py_str
    api_key name address city state_ country st
  = (match businesses with
     | [] => Matches.Raises Matches.IndexError
     | first :: _ => Matches.of_result (Py.getitem first "id")
     end,
     MatchesSpec.requested req w st).
Proof.
  intros req Hget Herror Hbusinesses.
  rewrite get_business_id_unfold. fold req. rewrite Hget.
  unfold MatchesSpec.after_match. cbn [Matches.has_error Py.getitem].
  rewrite (dict_get_absent _ _ Herror), Hbusinesses.
  destruct businesses; reflexivity.
Qed.

(** X12.  Without a reported error, [get_business_id] looks at the first
    business of the answer only: when the answer is an object with no
    [error] field and a list of [businesses], the call returns the [id] of
    the first of them ([KeyError] if it has none), and an empty list raises
    [IndexError] rather than returning [None].  Nothing is printed. *)
Theorem get_business_id_first_match :
  forall (World : Type)
    (requests_get_json : request -> World -> result pyval * World)
    (py_str : pyval -> string)
    (api_key name address city state_ country : pyval)
    (st : Matches.state World) (d : dict) (businesses : list pyval)
    (w : World),
    let req :=
      MatchesSpec.match_request py_str api_key name address city state_ country in
    requests_get_json req (world (Matches.api st)) = (Ok (PDict d), w) ->
    ~ In "error" (keys d) ->
    Py.dict_get d "businesses" = Some (PList businesses) ->
    Matches.get_business_id requests_get_json py_str
      api_key name address city state_ country st
    = (match businesses with
       | [] => Matches.Raises Matches.IndexError
       | first :: _ => Matches.of_result (Py.getitem first "id")
       end,
       Matches.State
         (ApiState w (sent (Matches.api st) ++ [req]) (sleeps (Matches.api st)))
         (Matches.stdout st)).
Proof.
  intros World get py_str api_key name address city state_ country st
    d businesses w req Hget Herror Hbusinesses.
  exact (@get_business_id_listed World get py_str api_key name address city
           state_ country st d businesses w Hget Herror Hbusinesses).
Qed.

(** X12, at a match with one business and at a match with none. *)
Lemma get_business_id_first_match_witness :
  ~ In "error" (keys [("businesses", PList [Sample.jibarito])])
  /\ fst (Matches.get_business_id Sample.scripted_api Fixture.str_of
            Sample.api_key Sample.name Sample.address Sample.city
            Sample.state_ Sample.country (Sample.fresh [Sample.match_answer]))
     = Matches.Returns (PStr "the-jibarito-stop-chicago-2")
  /\ ~ In "error" (keys [("businesses", PList [])])
  /\ fst (Matches.get_business_id Sample.scripted_api Fixture.str_of
            Sample.api_key Sample.name Sample.address Sample.city
            Sample.state_ Sample.country (Sample.fresh [Sample.no_match_answer]))
     = Matches.Raises Matches.IndexError.
Proof.
  assert (Hone : ~ In "error" (keys [("businesses", PList [Sample.jibarito])])).
  { cbn. intros [H|[]]. discriminate. }
  assert (Hnone : ~ In "error" (keys [("businesses", @PList [])])).
  { cbn. intros [H|[]]. discriminate. }
  split; [exact Hone|]. split; [|split; [exact Hnone|]].
  - rewrite (@get_business_id_first_match (list pyval) Sample.scripted_api
               Fixture.str_of Sample.api_key Sample.name Sample.address
               Sample.city Sample.state_ Sample.country
               (Sample.fresh [Sample.match_answer])
               _ [Sample.jibarito] [] eq_refl Hone eq_refl).
    reflexivity.
  - rewrite (@get_business_id_first_match (list pyval) Sample.scripted_api
               Fixture.str_of Sample.api_key Sample.name Sample.address
               Sample.city Sample.state_ Sample.country
               (Sample.fresh [Sample.no_match_answer])
               _ [] [] eq_refl Hnone eq_refl).
    reflexivity.
Defined.

(** X13.  [extract_reviews] of [src/unnamed/part_000] on a business that
    is not found: when the match request is answered with a reported error,
    the call prints the error's code and description and then
    [business not found], returns [None], and sends no request for
    reviews. *)
Theorem api_extract_reviews_not_found :
  forall (World : Type)
    (requests_get_json : request -> World -> result pyval * World)
    (py_str : pyval -> string)
    (api_key name address city state_ country : pyval)
    (st : Matches.state World) (content err code description : pyval)
    (w : World),
    let req :=
      MatchesSpec.match_request py_str api_key name address city state_ country in
    requests_get_json req (world (Matches.api st)) = (Ok content, w) ->
    Py.getitem content "error" = Ok err ->
    Py.getitem err "code" = Ok code ->
    Py.getitem err "description" = Ok description ->
    Matches.extract_reviews requests_get_json py_str
      api_key name address city state_ country st
    = (Matches.Returns None,
       Matches.State
         (ApiState w (sent (Matches.api st) ++ [req]) (sleeps (Matches.api st)))
         (Matches.stdout st
          ++ [("error code: " ++ py_str code)%string;
              ("description: " ++ py_str description)%string;
              "business not found"])).
Proof.
  intros World get py_str api_key name address city state_ country st
    content err code description w req Hget Herr Hcode Hdescription.
  rewrite extract_reviews_unfold_match.
  rewrite get_business_id_unfold. fold req. rewrite Hget.
  unfold MatchesSpec.after_match.
  rewrite (has_error_reported _ Herr), Herr, Hcode, Hdescription.
  cbn. rewrite <- !app_assoc. reflexivity.
Qed.

(** X13, at a service that answers "business not found". *)
Lemma api_extract_reviews_not_found_witness :
  Sample.scripted_api
    (MatchesSpec.match_request Fixture.str_of Sample.api_key Sample.name
       Sample.address Sample.city Sample.state_ Sample.country)
    [Sample.not_found_answer; Sample.reviews_answer]
  = (Ok Sample.not_found_answer, [Sample.reviews_answer])
  /\ Py.getitem Sample.not_found_answer "error" = Ok Sample.not_found_error
  /\ Py.getitem Sample.not_found_error "code" = Ok (PStr "BUSINESS_NOT_FOUND")
  /\ Py.getitem Sample.not_found_error "description"
     = Ok (PStr "The requested business could not be found.")
  /\ fst (Matches.extract_reviews Sample.scripted_api Fixture.str_of
            Sample.api_key Sample.name Sample.address Sample.city
            Sample.state_ Sample.country
            (Sample.fresh [Sample.not_found_answer; Sample.reviews_answer]))
     = Matches.Returns None
  /\ world (Matches.api
       (snd (Matches.extract_reviews Sample.scripted_api Fixture.str_of
               Sample.api_key Sample.name Sample.address Sample.city
               Sample.state_ Sample.country
               (Sample.fresh [Sample.not_found_answer; Sample.reviews_answer]))))
     = [Sample.reviews_answer].
Proof.
  split; [reflexivity|]. split; [reflexivity|]. split; [reflexivity|].
  split; [reflexivity|].
  rewrite (@api_extract_reviews_not_found (list pyval) Sample.scripted_api
             Fixture.str_of Sample.api_key Sample.name Sample.address
             Sample.city Sample.state_ Sample.country
             (Sample.fresh [Sample.not_found_answer; Sample.reviews_answer])
             Sample.not_found_answer Sample.not_found_error _ _
             [Sample.reviews_answer] eq_refl eq_refl eq_refl eq_refl).
  split; reflexivity.
Defined.

(** X14.  [extract_reviews] of [src/unnamed/part_000] on a business that
    is found: when the match answer has no [error] field and its first
    business has a string [id], the call sends a second request to
    [/<id>/reviews] under the businesses endpoint, with the same bearer token
    and no parameter, and returns the [reviews] and the [total] of its
    answer.  Two requests are sent, nothing is printed, nothing pauses. *)
Theorem api_extract_reviews_found :
  forall (World : Type)
    (requests_get_json : request -> World -> result pyval * World)
    (py_str : pyval -> string)
    (api_key name address city state_ country : pyval)
    (st : Matches.state World) (d : dict) (first : pyval)
    (others : list pyval) (id : string) (content reviews total : pyval)
    (w1 w2 : World),
    let req1 :=
      MatchesSpec.match_request py_str api_key name address city state_ country in
    let req2 := MatchesSpec.reviews_request py_str api_key id in
    requests_get_json req1 (world (Matches.api st)) = (Ok (PDict d), w1) ->
    ~ In "error" (keys d) ->
    Py.dict_get d "businesses" = Some (PList (first :: others)) ->
    Py.getitem first "id" = Ok (PStr id) ->
    requests_get_json req2 w1 = (Ok content, w2) ->
    Py.getitem content "reviews" = Ok reviews ->
    Py.getitem content "total" = Ok total ->
    Matches.extract_reviews requests_get_json py_str
      api_key name address city state_ country st
    = (Matches.Returns (Some (reviews, total)),
       Matches.State
         (ApiState w2 (sent (Matches.api st) ++ [req1; req2])
            (sleeps (Matches.api st)))
         (Matches.stdout st)).
Proof.
  intros World get py_str api_key name address city state_ country st
    d first others id content reviews total w1 w2 req1 req2
    Hget1 Herror Hbusinesses Hid Hget2 Hreviews Htotal.
  rewrite extract_reviews_unfold_match.
  rewrite (@get_business_id_listed World get py_str api_key name address
             city state_ country st d (first :: others) w1
             Hget1 Herror Hbusinesses).
  rewrite Hid. unfold MatchesSpec.requested.
  cbn [Matches.of_result Matches.api world]. fold req2.
  rewrite Hget2, Hreviews, Htotal.
  cbn. rewrite <- app_assoc. reflexivity.
Qed.

(** X14, at a service scripted with a match and then the reviews. *)
Lemma api_extract_reviews_found_witness :
  ~ In "error" (keys [("businesses", PList [Sample.jibarito])])
  /\ Sample.scripted_api
       (MatchesSpec.reviews_request Fixture.str_of Sample.api_key
          "the-jibarito-stop-chicago-2")
       [Sample.reviews_answer]
     = (Ok Sample.reviews_answer, [])
  /\ Matches.extract_reviews Sample.scripted_api Fixture.str_of
       Sample.api_key Sample.name Sample.address Sample.city
       Sample.state_ Sample.country
       (Sample.fresh [Sample.match_answer; Sample.reviews_answer])
     = (Matches.Returns (Some (Sample.three_reviews, PInt 112)),
        Matches.State
          (ApiState []
             [MatchesSpec.match_request Fixture.str_of Sample.api_key
                Sample.name Sample.address Sample.city Sample.state_
                Sample.country;
              ("https://api.yelp.com/v3/businesses/the-jibarito-stop-chicago-2/reviews",
               [("Authorization", PStr "Bearer k3y")], [])]
             0)
          []).
Proof.
  assert (Hone : ~ In "error" (keys [("businesses", PList [Sample.jibarito])])).
  { cbn. intros [H|[]]. discriminate. }
  split; [exact Hone|]. split; [reflexivity|].
  exact (@api_extract_reviews_found (list pyval) Sample.scripted_api
           Fixture.str_of Sample.api_key Sample.name Sample.address
           Sample.city Sample.state_ Sample.country
           (Sample.fresh [Sample.match_answer; Sample.reviews_answer])
           _ Sample.jibarito [] "the-jibarito-stop-chicago-2"
           Sample.reviews_answer Sample.three_reviews (PInt 112)
           [Sample.reviews_answer] []
           eq_refl Hone eq_refl eq_refl eq_refl eq_refl eq_refl).
Defined.

Section MatchEffects.

Variable World : Type.
Variable requests_get_json : request -> World -> result pyval * World.
Variable py_str : pyval -> string.

(** [get_business_id] only adds to the output, and adds nothing when it
    returns something other than [None]. *)
Lemma get_business_id_output
  (api_key name address city state_ country : pyval)
  (st : Matches.state World) :
  let run :=
    Matches.get_business_id requests_get_json py_str
      api_key name address city state_ country st in
  (exists out, Matches.stdout (snd run) = Matches.stdout st ++ out)
  /\ (forall v, fst run = Matches.Returns v -> v <> PNone ->
                Matches.stdout (snd run) = Matches.stdout st).
Proof.
  intros run. subst run. rewrite get_business_id_unfold.
  set (req := MatchesSpec.match_request py_str api_key name address city
                state_ country).
  assert (Hsame : exists out : list string,
             Matches.stdout st = Matches.stdout st ++ out)
    by (exists []; rewrite app_nil_r; reflexivity).
  destruct (requests_get_json req (world (Matches.api st))) as [[content|e] w];
    [|cbn; split; [exact Hsame|discriminate]].
  unfold MatchesSpec.after_match.
  destruct (Matches.has_error content) as [[|]|e];
    [| |cbn; split; [exact Hsame|discriminate]].
  - destruct (Py.getitem content "error") as [err|e];
      [|cbn; split; [exact Hsame|discriminate]].
    destruct (Py.getitem err "code") as [code|e];
      [|cbn; split; [exact Hsame|discriminate]].
    destruct (Py.getitem err "description") as [description|e]; cbn.
    + split; [rewrite <- app_assoc; eauto|].
      intros v Hv Hnone. injection Hv as <-. contradiction.
    + split; [eauto|discriminate].
  - destruct (Py.getitem content "businesses") as [business|e];
      [|cbn; split; [exact Hsame|discriminate]].
    destruct (Matches.first_item business) as [first|e]; cbn;
      (split; [exact Hsame|]); [reflexivity|discriminate].
Qed.

End MatchEffects.

(** X15.  [extract_reviews] of [src/unnamed/part_000] sends one request
    or two and never pauses, whatever the service answers: the first request
    is the business match, the second (if any) asks for the reviews of one
    business id.  When the call returns [None] it has sent the match request
    only and the last line printed is [business not found]; when it returns
    reviews it has sent both requests and printed nothing. *)
Theorem api_extract_reviews_effects :
  forall (World : Type)
    (requests_get_json : request -> World -> result pyval * World)
    (py_str : pyval -> string)
    (api_key name address city state_ country : pyval)
    (st : Matches.state World),
    let req1 :=
      MatchesSpec.match_request py_str api_key name address city state_ country in
    let run :=
      Matches.extract_reviews requests_get_json py_str
        api_key name address city state_ country st in
    let st' := snd run in
    (sent (Matches.api st') = sent (Matches.api st) ++ [req1]
     \/ exists id,
          sent (Matches.api st')
          = sent (Matches.api st)
            ++ [req1; MatchesSpec.reviews_request py_str api_key id])
    /\ sleeps (Matches.api st') = sleeps (Matches.api st)
    /\ (fst run = Matches.Returns None ->
        sent (Matches.api st') = sent (Matches.api st) ++ [req1]
        /\ exists out,
             Matches.stdout st'
             = Matches.stdout st ++ out ++ ["business not found"])
    /\ (forall found, fst run = Matches.Returns (Some found) ->
        (exists id,
            sent (Matches.api st')
            = sent (Matches.api st)
              ++ [req1; MatchesSpec.reviews_request py_str api_key id])
        /\ Matches.stdout st' = Matches.stdout st).
Proof.
  intros World get py_str api_key name address city state_ country st
    req1 run st'.
  subst st' run. rewrite extract_reviews_unfold_match.
  destruct (@get_business_id_one_request World get py_str api_key name address
              city state_ country st) as (Hsent & Hsleeps & _).
  destruct (@get_business_id_output World get py_str api_key name address
              city state_ country st) as ((out & Hout) & Hquiet).
  fold req1 in Hsent.
  destruct (Matches.get_business_id get py_str api_key name address city
              state_ country st) as [[v|e] st1];
    cbn [fst snd] in Hsent, Hsleeps, Hout, Hquiet.
  - destruct v as [| | |id| |];
      try (cbn [fst snd Matches.api Matches.stdout];
           split; [left; exact Hsent|];
           split; [exact Hsleeps|];
           split; [discriminate|intros found; discriminate]).
    + cbn [fst snd Matches.api Matches.stdout].
      split; [left; exact Hsent|]. split; [exact Hsleeps|].
      split; [|intros found; discriminate].
      intros _. split; [exact Hsent|].
      exists out. rewrite Hout, app_assoc. reflexivity.
    + cbv zeta.
      assert (Htwo : forall w,
                 sent (Matches.api
                         (MatchesSpec.requested
                            (MatchesSpec.reviews_request py_str api_key id) w st1))
                 = sent (Matches.api st)
                   ++ [req1; MatchesSpec.reviews_request py_str api_key id]).
      { intros w. unfold MatchesSpec.requested. cbn [Matches.api sent].
        rewrite Hsent, <- app_assoc. reflexivity. }
      destruct (get (MatchesSpec.reviews_request py_str api_key id)
                  (world (Matches.api st1))) as [[content|e] w];
        cbn [fst snd].
      * split; [right; exists id; apply Htwo|].
        split; [exact Hsleeps|].
        split.
        { destruct (Py.getitem content "reviews"); [|discriminate].
          destruct (Py.getitem content "total"); discriminate. }
        intros found _. split; [exists id; apply Htwo|].
        cbn [MatchesSpec.requested Matches.stdout].
        apply (Hquiet (PStr id)); [reflexivity|discriminate].
      * split; [right; exists id; apply Htwo|].
        split; [exact Hsleeps|].
        split; [discriminate|intros found; discriminate].
  - cbn [fst snd]. split; [left; exact Hsent|]. split; [exact Hsleeps|].
    split; [discriminate|intros found; discriminate].
Qed.
